(** * StudyHub backend: the subject / resource catalogue of [server.js]

    A shallow embedding of the Express application of [src/server.js]:
    the two Mongoose models, the collection operations the route handlers
    call, the handlers themselves and the order in which Express tries the
    middleware and routes.

    Conventions of the embedding.
    - A Mongoose [Number] that holds an integer is a [Z].  What a handler
      adds to it in JavaScript is added as JavaScript adds doubles
      ([js_add]): exactly below 2^53, rounded from there on.  What the
      store adds with [$inc] and [$sum] is added in [Z], as the store
      adds the numbers it holds as integers, and those it holds as
      doubles while they are below 2^53; the theorems that state by how
      much such a sum moves take the counters to be below 2^53.  A
      Number that holds no integer and a [null] in its place are not
      values of the embedding.
    - A Mongoose [String] path without [required] is an [option string]:
      [None] is a missing path.  A string is the sequence of the bytes of
      its UTF-8 form; letters are folded as ASCII letters.
    - A request body is the record of the values it gives to the paths of
      the schema, the way Mongoose casts it: a path the body leaves out is
      [None].  A body that sets [_id] or a timestamp, and a body of update
      operators ([$inc], [$unset], ...), which [findByIdAndUpdate] would
      apply, are not values of the embedding.
    - [req.params.id] either spells an identifier or does not ([IdParam]).
    - A collection is the list of its documents in insertion order, which
      is the order in which [findOne] meets them.
    - The instant [now] at which a request is served is an argument of its
      handler.
    - The regular expressions of the store and [decodeURIComponent] are
      not code of server.js: the handlers and the router are defined over
      any engine [pcre] and any decoder, and the theorems hold for each.

    The repository holds a second, earlier [server.js] with neither
    counters nor filters; the embedding follows the file with both. *)

From Stdlib Require Import ZArith String Ascii Lia.
From Stdlib Require OrderedTypeEx.
From stdpp Require Import base option list sorting strings.

Local Open Scope string_scope.
Local Open Scope Z_scope.

#[local] Set Warnings "-clear-no-such-hyp".
#[local] Set Default Proof Using "Type".
#[local] Set Proof Using Clear Unused.

(** ** Models (server.js, lines 24-50) *)

Definition Id := nat.

Record Subject := mkSubject {
  s_id : Id;
  s_name : option string;
  s_slug : option string;
  s_icon : option string;
  s_category : option string;
  s_description : option string;
  resourceCount : Z;
  s_createdAt : Z;
  s_updatedAt : Z
}.

Record Resource := mkResource {
  r_id : Id;
  r_name : option string;
  subject : option string;
  r_type : option string;
  r_description : option string;
  link : option string;
  fileSize : option string;
  year : option Z;
  downloads : Z;
  views : Z;
  r_createdAt : Z;
  r_updatedAt : Z
}.

(** [req.body] as cast by [subjectSchema]. *)
Record SubjectBody := mkSubjectBody {
  sb_name : option string;
  sb_slug : option string;
  sb_icon : option string;
  sb_category : option string;
  sb_description : option string;
  sb_resourceCount : option Z
}.

(** [req.body] as cast by [resourceSchema]. *)
Record ResourceBody := mkResourceBody {
  rb_name : option string;
  rb_subject : option string;
  rb_type : option string;
  rb_description : option string;
  rb_link : option string;
  rb_fileSize : option string;
  rb_year : option Z;
  rb_downloads : option Z;
  rb_views : option Z
}.

(** The database: both collections and the next fresh [_id]. *)
Record Store := mkStore {
  subjects : list Subject;
  resources : list Resource;
  next_id : Id
}.

Definition empty_store : Store := mkStore [] [] 0%nat.

(** ** Field updates *)

(** [$inc: { resourceCount: delta }], applied by the store.  The store
    adds integers exactly and doubles as doubles: the sum written here is
    the one it stores for a count it holds as an integer, as it holds
    every count that the schema default and [$inc] alone have produced,
    and for every count below 2^53. *)
Definition inc_resourceCount (now delta : Z) (s : Subject) : Subject :=
  mkSubject (s_id s) (s_name s) (s_slug s) (s_icon s) (s_category s)
            (s_description s) (resourceCount s + delta) (s_createdAt s) now.

Definition set_views (now v : Z) (r : Resource) : Resource :=
  mkResource (r_id r) (r_name r) (subject r) (r_type r) (r_description r)
             (link r) (fileSize r) (year r) (downloads r) v (r_createdAt r) now.

Definition set_downloads (now d : Z) (r : Resource) : Resource :=
  mkResource (r_id r) (r_name r) (subject r) (r_type r) (r_description r)
             (link r) (fileSize r) (year r) d (views r) (r_createdAt r) now.

(** [$set] of one path: the body's value when it has one. *)
Definition overlay {A} (new : option A) (old : option A) : option A :=
  match new with Some v => Some v | None => old end.

(** [Model.create(body)]: the paths of the body, the schema defaults for
    the counters it leaves out, the identifier and the timestamps of the
    store. *)
Definition new_subject (id : Id) (now : Z) (b : SubjectBody) : Subject :=
  mkSubject id (sb_name b) (sb_slug b) (sb_icon b) (sb_category b)
            (sb_description b) (default 0 (sb_resourceCount b)) now now.

Definition new_resource (id : Id) (now : Z) (b : ResourceBody) : Resource :=
  mkResource id (rb_name b) (rb_subject b) (rb_type b) (rb_description b)
             (rb_link b) (rb_fileSize b) (rb_year b)
             (default 0 (rb_downloads b)) (default 0 (rb_views b)) now now.

(** [findByIdAndUpdate(id, body, { new: true })] for a body of field
    values, which Mongoose sends as one [$set]: the paths the body gives
    are overwritten, the others kept, [updatedAt] is the instant of the
    call. *)
Definition update_subject (now : Z) (b : SubjectBody) (s : Subject) : Subject :=
  mkSubject (s_id s)
            (overlay (sb_name b) (s_name s)) (overlay (sb_slug b) (s_slug s))
            (overlay (sb_icon b) (s_icon s))
            (overlay (sb_category b) (s_category s))
            (overlay (sb_description b) (s_description s))
            (default (resourceCount s) (sb_resourceCount b))
            (s_createdAt s) now.

Definition update_resource (now : Z) (b : ResourceBody) (r : Resource) : Resource :=
  mkResource (r_id r)
             (overlay (rb_name b) (r_name r)) (overlay (rb_subject b) (subject r))
             (overlay (rb_type b) (r_type r))
             (overlay (rb_description b) (r_description r))
             (overlay (rb_link b) (link r)) (overlay (rb_fileSize b) (fileSize r))
             (overlay (rb_year b) (year r))
             (default (downloads r) (rb_downloads b))
             (default (views r) (rb_views b))
             (r_createdAt r) now.

(** ** Collection operations (the Mongoose calls of the handlers) *)

Definition with_subjects (l : list Subject) (st : Store) : Store :=
  mkStore l (resources st) (next_id st).

Definition with_resources (l : list Resource) (st : Store) : Store :=
  mkStore (subjects st) l (next_id st).

(** [Model.findById(id)]: position and document, or [None] for [null]. *)
Definition Subject_findById (id : Id) (st : Store) : option (nat * Subject) :=
  list_find (λ s, s_id s = id) (subjects st).

Definition Resource_findById (id : Id) (st : Store) : option (nat * Resource) :=
  list_find (λ r, r_id r = id) (resources st).

(** [Subject.findOne({ name })]. *)
Definition Subject_findOne_name (name : option string) (st : Store)
  : option (nat * Subject) :=
  list_find (λ s, s_name s = name) (subjects st).

(** [Subject.findOne({ slug })]. *)
Definition Subject_findOne_slug (slug : string) (st : Store)
  : option (nat * Subject) :=
  list_find (λ s, s_slug s = Some slug) (subjects st).

(** [Subject.create(body)]. *)
Definition Subject_create (now : Z) (b : SubjectBody) (st : Store)
  : Subject * Store :=
  let s := new_subject (next_id st) now b in
  (s, mkStore (subjects st ++ [s]) (resources st) (S (next_id st))).

(** [Resource.create(body)]. *)
Definition Resource_create (now : Z) (b : ResourceBody) (st : Store)
  : Resource * Store :=
  let r := new_resource (next_id st) now b in
  (r, mkStore (subjects st) (resources st ++ [r]) (S (next_id st))).

(** [Subject.findByIdAndUpdate(id, body, { new: true })]. *)
Definition Subject_findByIdAndUpdate (now : Z) (id : Id) (b : SubjectBody)
    (st : Store) : option Subject * Store :=
  match Subject_findById id st with
  | Some (i, s) =>
      let s' := update_subject now b s in
      (Some s', with_subjects (<[i := s']> (subjects st)) st)
  | None => (None, st)
  end.

(** [Resource.findByIdAndUpdate(id, body, { new: true })]. *)
Definition Resource_findByIdAndUpdate (now : Z) (id : Id) (b : ResourceBody)
    (st : Store) : option Resource * Store :=
  match Resource_findById id st with
  | Some (i, r) =>
      let r' := update_resource now b r in
      (Some r', with_resources (<[i := r']> (resources st)) st)
  | None => (None, st)
  end.

(** [Subject.findByIdAndDelete(id)]. *)
Definition Subject_findByIdAndDelete (id : Id) (st : Store)
  : option Subject * Store :=
  match Subject_findById id st with
  | Some (i, s) => (Some s, with_subjects (delete i (subjects st)) st)
  | None => (None, st)
  end.

(** [Resource.findByIdAndDelete(id)]. *)
Definition Resource_findByIdAndDelete (id : Id) (st : Store)
  : option Resource * Store :=
  match Resource_findById id st with
  | Some (i, r) => (Some r, with_resources (delete i (resources st)) st)
  | None => (None, st)
  end.

(** [Subject.findOneAndUpdate({ name }, { $inc: { resourceCount: delta } })]:
    the first Subject with that name, if there is one, and no other. *)
Definition Subject_findOneAndUpdate_inc (now : Z) (name : option string)
    (delta : Z) (st : Store) : Store :=
  match Subject_findOne_name name st with
  | Some (i, s) =>
      with_subjects (<[i := inc_resourceCount now delta s]> (subjects st)) st
  | None => st
  end.

(** [doc.save()] of a fetched Resource: the document is written back over
    the stored one with its [_id]. *)
Definition Resource_save (r : Resource) (st : Store) : Store :=
  match Resource_findById (r_id r) st with
  | Some (i, _) => with_resources (<[i := r]> (resources st)) st
  | None => st
  end.

(** ** JavaScript helpers *)

(** Truthiness of a query-string parameter: present and not empty. *)
Definition truthy (p : option string) : bool :=
  match p with
  | Some s => negb (String.eqb s "")
  | None => false
  end.

(** The double nearest to an integer: the integer itself below 2^53, and
    from there on the nearest integer with 53 significant bits, the one
    with an even 53rd bit when two are as near. *)
Definition to_double (z : Z) : Z :=
  let a := Z.abs z in
  if a <? 2 ^ 53 then z
  else
    let k := Z.log2 a - 52 in
    let q := a / 2 ^ k in
    let r := a mod 2 ^ k in
    let half := 2 ^ (k - 1) in
    let q' := if r <? half then q
              else if half <? r then q + 1
              else if Z.even q then q else q + 1 in
    Z.sgn z * (q' * 2 ^ k).

(** [a + b] in JavaScript, for two Numbers that hold integers and a sum
    in the range of the doubles. *)
Definition js_add (a b : Z) : Z := to_double (a + b).

(** The result of [parseInt]. *)
Inductive Number := Num (z : Z) | Infinity (negative : bool) | NaN.

(** The Number an integer is read as: beyond the largest double it is an
    infinity. *)
Definition to_number (z : Z) : Number :=
  let d := to_double z in
  if Z.abs d <? 2 ^ 1024 then Num d else Infinity (z <? 0).

Definition code (c : ascii) : Z := Z.of_N (N_of_ascii c).

(** The white space and the line terminators of JavaScript, by the bytes
    of their UTF-8 form.  One byte: U+0009 to U+000D and U+0020. *)
Definition is_space (c : ascii) : bool :=
  ((9 <=? code c) && (code c <=? 13)) || (code c =? 32).

(** Two bytes: U+00A0. *)
Definition is_space2 (a b : ascii) : bool :=
  (code a =? 194) && (code b =? 160).

(** Three bytes: U+1680; U+2000 to U+200A, U+2028, U+2029 and U+202F;
    U+205F; U+3000; U+FEFF. *)
Definition is_space3 (a b c : ascii) : bool :=
  ((code a =? 225) && (code b =? 154) && (code c =? 128)) ||
  ((code a =? 226) && (code b =? 128) &&
   (((128 <=? code c) && (code c <=? 138)) || (code c =? 168) ||
    (code c =? 169) || (code c =? 175))) ||
  ((code a =? 226) && (code b =? 129) && (code c =? 159)) ||
  ((code a =? 227) && (code b =? 128) && (code c =? 128)) ||
  ((code a =? 239) && (code b =? 187) && (code c =? 191)).

Fixpoint skip_spaces (s : string) : string :=
  match s with
  | String a s1 =>
      if is_space a then skip_spaces s1
      else
        match s1 with
        | String b s2 =>
            if is_space2 a b then skip_spaces s2
            else
              match s2 with
              | String c s3 =>
                  if is_space3 a b c then skip_spaces s3 else s
              | EmptyString => s
              end
        | EmptyString => s
        end
  | EmptyString => s
  end.

(** The value of a character as a digit: 0-9, then letters from 10. *)
Definition digit_value (c : ascii) : option Z :=
  let n := code c in
  if (48 <=? n) && (n <=? 57) then Some (n - 48)
  else if (97 <=? n) && (n <=? 122) then Some (n - 87)
  else if (65 <=? n) && (n <=? 90) then Some (n - 55)
  else None.

(** The longest prefix of digits of the radix; [acc] is [None] until a
    digit is read. *)
Fixpoint read_digits (radix : Z) (s : string) (acc : option Z) : option Z :=
  match s with
  | String c s' =>
      match digit_value c with
      | Some d =>
          if d <? radix
          then read_digits radix s' (Some (radix * default 0 acc + d))
          else acc
      | None => acc
      end
  | EmptyString => acc
  end.

(** [parseInt(s)] with no radix argument: leading white space, a sign, a
    [0x] prefix for radix 16, then the digits, read as a Number; [NaN]
    when there is no digit. *)
Definition parseInt (s : string) : Number :=
  let s1 := skip_spaces s in
  let '(sign, s2) :=
    match s1 with
    | String "-" r => (-1, r)
    | String "+" r => (1, r)
    | _ => (1, s1)
    end in
  let '(radix, s3) :=
    match s2 with
    | String "0" (String "x" r) => (16, r)
    | String "0" (String "X" r) => (16, r)
    | _ => (10, s2)
    end in
  match read_digits radix s3 None with
  | Some n => to_number (sign * n)
  | None => NaN
  end.

(** [Math.ceil(a / b)] on integers; [None] when the quotient is not a
    finite number ([b] is 0), which JSON prints as [null]. *)
Definition ceil_div (a b : Z) : option Z :=
  if b =? 0 then None else Some (- ((- a) / b)).

(** ** Regular expressions of the store ([$regex] with [$options: 'i'])

    The store searches the field for a match of the pattern anywhere in
    it, with an engine that is not code of server.js: the handlers below
    take the engine as [pcre].  The definitions here are that engine on
    the patterns made of ordinary characters, the wildcard [.] and a
    backslash before a character that is neither a letter nor a digit;
    the examples are computed with them. *)

Inductive Atom := Lit (c : ascii) | Dot.

Definition metachar (c : ascii) : bool :=
  existsb (Ascii.eqb c) (list_ascii_of_string "\^$.|?*+()[]{}").

Definition alnum (c : ascii) : bool :=
  match digit_value c with Some _ => true | None => false end.

Fixpoint regex_compile (p : string) : option (list Atom) :=
  match p with
  | EmptyString => Some []
  | String c p' =>
      if Ascii.eqb c "." then cons Dot <$> regex_compile p'
      else if Ascii.eqb c "\" then
        match p' with
        | String e p'' =>
            if alnum e then None else cons (Lit e) <$> regex_compile p''
        | EmptyString => None
        end
      else if metachar c then None
      else cons (Lit c) <$> regex_compile p'
  end.

Definition lower (c : ascii) : ascii :=
  if (65 <=? code c) && (code c <=? 90)
  then ascii_of_N (N_of_ascii c + 32) else c.

Fixpoint lower_string (s : string) : string :=
  match s with
  | String c s' => String (lower c) (lower_string s')
  | EmptyString => EmptyString
  end.

(** One atom against one character, ignoring case; [.] is any character
    but a line feed. *)
Definition atom_matches (a : Atom) (c : ascii) : bool :=
  match a with
  | Lit x => Ascii.eqb (lower x) (lower c)
  | Dot => negb (Ascii.eqb c "010")
  end.

Fixpoint match_here (pat : list Atom) (s : string) : bool :=
  match pat, s with
  | [], _ => true
  | a :: pat', String c s' => atom_matches a c && match_here pat' s'
  | _ :: _, EmptyString => false
  end.

Fixpoint regex_search (pat : list Atom) (s : string) : bool :=
  match_here pat s ||
  match s with
  | String _ s' => regex_search pat s'
  | EmptyString => false
  end.

(** The engine of the examples: the search above on the patterns it
    covers.  It refuses every other pattern, valid or not; no example
    uses one. *)
Definition fragment (p : string) : option (string → bool) :=
  regex_search <$> regex_compile p.

(** A compiled pattern against a field: a missing field matches none. *)
Definition regex_field (m : string → bool) (field : option string) : bool :=
  match field with
  | Some s => m s
  | None => false
  end.

(** The decoder of the examples: a string without a percent sign decodes
    to itself.  It refuses every string with one; no example uses one. *)
Definition unescaped (s : string) : option string :=
  if existsb (Ascii.eqb "%") (list_ascii_of_string s) then None else Some s.

(** ** Responses *)

Inductive StoreError :=
| CastError (path : string)     (* a value does not cast to the path's type *)
| BadPattern (pattern : string) (* the store refuses the pattern of a $regex *)
| BadSkip (n : Z).              (* the server refuses a negative skip *)

(** What a failed store call gives back to [await]. *)
Inductive Outcome (A : Type) :=
| Ok (a : A)
| Throw (e : StoreError).
Arguments Ok {A} a.
Arguments Throw {A} e.

Inductive Json :=
| J_subjects (count : nat) (found : list Subject)
| J_subject (s : Subject)
| J_resources (count total : nat) (page : Z) (pages : option Z)
              (found : list Resource)
| J_resource (r : Resource)
| J_downloads (n : Z)
| J_health (timestamp : Z)
| J_stats (n_subjects n_resources : nat) (sum_downloads sum_views : Z)
| J_message (success : bool) (message : string)
| J_error (e : StoreError).     (* { success: false, message: err.message } *)

Inductive Response :=
| Reply (status : Z) (body : Json)
| File (path : list string)
| Empty (status : Z).

(** The [catch] of every handler. *)
Definition catch500 (r : Outcome Response) : Response :=
  match r with
  | Ok resp => resp
  | Throw e => Reply 500 (J_error e)
  end.

(** An awaited store call: the outcome the [await] resumes with.  Every
    call of the handlers below resumes. *)
Definition Mongo (A : Type) := option (Outcome A).

Definition and_then {A B} (m : Mongo A) (k : A → Mongo B) : Mongo B :=
  match m with
  | Some (Ok a) => k a
  | Some (Throw e) => Some (Throw e)
  | None => None
  end.

Notation "'await' x ← m ; k" := (and_then m (λ x, k))
  (at level 10, x name, m at level 100, k at level 200, only parsing).

Definition try_catch (m : Mongo Response) : option Response :=
  catch500 <$> m.

(** [req.params.id] as the models read it: Mongoose casts it to an
    ObjectId, and a string that spells none makes the call throw. *)
Inductive IdParam := ObjectId (id : Id) | NotAnObjectId.

(** A handler of [/:id] on the parameter of the request: the [catch]
    answers the cast error with 500, before anything is written. *)
Definition with_id (handler : Id → Store → Response * Store) (p : IdParam)
    (st : Store) : Response * Store :=
  match p with
  | ObjectId id => handler id st
  | NotAnObjectId => (Reply 500 (J_error (CastError "_id")), st)
  end.

Section platform.

(** The engine of the store on a pattern with the option [i]: [None] when
    it refuses the pattern, and else whether a string holds a match. *)
Variable pcre : string → option (string → bool).

(** [decodeURIComponent], with which Express decodes the parameters of a
    path: [None] when it throws. *)
Variable decodeURIComponent : string → option string.

(** The pattern of a [$regex], compiled by the store when it runs the
    query. *)
Definition compile_search (search : option string)
  : Mongo (option (string → bool)) :=
  match search with
  | Some p =>
      match pcre p with
      | Some m => Some (Ok (Some m))
      | None => Some (Throw (BadPattern p))
      end
  | None => Some (Ok None)
  end.

(** ** Health check (server.js, lines 54-57) *)

(** [GET /api/health]. *)
Definition get_health (now : Z) : Response :=
  Reply 200 (J_health now).

(** ** Subjects routes (server.js, lines 59-117) *)

Record SubjectsQuery := mkSubjectsQuery {
  sq_category : option string;
  sq_search : option string
}.

(** The [query] object [GET /api/subjects] builds. *)
Record SubjectFilter := mkSubjectFilter {
  sf_category : option string;      (* query.category *)
  sf_name_regex : option string     (* query.name = { $regex, $options: 'i' } *)
}.

Definition subjects_query (q : SubjectsQuery) : SubjectFilter :=
  mkSubjectFilter
    (if truthy (sq_category q) && negb (bool_decide (sq_category q = Some "all"))
     then sq_category q else None)
    (if truthy (sq_search q) then sq_search q else None).

Definition subject_matches (category : option string)
    (pat : option (string → bool)) (s : Subject) : bool :=
  match category with
  | Some c => bool_decide (s_category s = Some c)
  | None => true
  end &&
  match pat with
  | Some m => regex_field m (s_name s)
  | None => true
  end.

(** Field order of the store on an optional string: missing first, then
    the strings by their characters' codes. *)
Definition opt_string_leb (a b : option string) : bool :=
  match a, b with
  | None, _ => true
  | Some _, None => false
  | Some x, Some y => String.leb x y
  end.

(** [sort({ name: 1 })]. *)
Definition by_name (a b : Subject) : Prop :=
  opt_string_leb (s_name a) (s_name b).

Global Instance by_name_dec : RelDecision by_name.
Proof. intros a b. unfold by_name. apply _. Defined.

(** [Subject.find(query).sort({ name: 1 })]. *)
Definition Subject_find_sorted (f : SubjectFilter) (st : Store)
  : Mongo (list Subject) :=
  await pat ← compile_search (sf_name_regex f);
  Some (Ok (merge_sort by_name
              (filter (λ s, subject_matches (sf_category f) pat s)
                      (subjects st)))).

(** [GET /api/subjects]. *)
Definition get_subjects (q : SubjectsQuery) (st : Store) : option Response :=
  try_catch (
    let query := subjects_query q in
    await found ← Subject_find_sorted query st;
    Some (Ok (Reply 200 (J_subjects (length found) found)))).

(** [GET /api/subjects/:slug]. *)
Definition get_subject (slug : string) (st : Store) : Response :=
  match Subject_findOne_slug slug st with
  | None => Reply 404 (J_message false "Subject not found")
  | Some (_, s) => Reply 200 (J_subject s)
  end.

(** [POST /api/subjects]. *)
Definition post_subjects (now : Z) (body : SubjectBody) (st : Store)
  : Response * Store :=
  let '(s, st1) := Subject_create now body st in
  (Reply 201 (J_subject s), st1).

(** [PUT /api/subjects/:id]. *)
Definition put_subject (now : Z) (id : Id) (body : SubjectBody) (st : Store)
  : Response * Store :=
  match Subject_findByIdAndUpdate now id body st with
  | (None, st1) => (Reply 404 (J_message false "Subject not found"), st1)
  | (Some s, st1) => (Reply 200 (J_subject s), st1)
  end.

(** [DELETE /api/subjects/:id]. *)
Definition delete_subject (id : Id) (st : Store) : Response * Store :=
  match Subject_findByIdAndDelete id st with
  | (None, st1) => (Reply 404 (J_message false "Subject not found"), st1)
  | (Some _, st1) => (Reply 200 (J_message true "Subject deleted"), st1)
  end.

(** ** Resources routes (server.js, lines 119-213) *)

(** [req.query] of [GET /api/resources].  [page] and [limit] are the
    integers their decimal spelling denotes. *)
Record ResourcesQuery := mkResourcesQuery {
  rq_subject : option string;
  rq_type : option string;
  rq_year : option string;
  rq_search : option string;
  rq_page : option Z;
  rq_limit : option Z
}.

(** The [query] object [GET /api/resources] builds. *)
Record ResourceFilter := mkResourceFilter {
  rf_subject : option string;       (* query.subject *)
  rf_type : option string;          (* query.type *)
  rf_year : option Number;          (* query.year = parseInt(year) *)
  rf_or_regex : option string       (* query.$or on name and description *)
}.

Definition resources_query (q : ResourcesQuery) : ResourceFilter :=
  mkResourceFilter
    (if truthy (rq_subject q) then rq_subject q else None)
    (if truthy (rq_type q) then rq_type q else None)
    (if truthy (rq_year q) then parseInt <$> rq_year q else None)
    (if truthy (rq_search q) then rq_search q else None).

(** The filter as the store runs it: cast by Mongoose against
    [resourceSchema], its pattern compiled. *)
Record CastFilter := mkCastFilter {
  cf_subject : option string;
  cf_type : option string;
  cf_year : option Number;
  cf_or : option (string → bool)
}.

(** Casting the filter: [NaN] is not a value of the [Number] path [year],
    so the query is refused with a cast error before it is sent.  The
    store then refuses a pattern its engine does not compile. *)
Definition cast_filter (f : ResourceFilter) : Mongo CastFilter :=
  match rf_year f with
  | Some NaN => Some (Throw (CastError "year"))
  | y =>
      await pat ← compile_search (rf_or_regex f);
      Some (Ok (mkCastFilter (rf_subject f) (rf_type f) y pat))
  end.

(** A Resource against the filter.  The years of the embedding are
    integers: an infinite [year] selects none of them. *)
Definition resource_matches (f : CastFilter) (r : Resource) : bool :=
  match cf_subject f with
  | Some s => bool_decide (subject r = Some s)
  | None => true
  end &&
  match cf_type f with
  | Some t => bool_decide (r_type r = Some t)
  | None => true
  end &&
  match cf_year f with
  | Some (Num y) => bool_decide (year r = Some y)
  | Some _ => false
  | None => true
  end &&
  match cf_or f with
  | Some m => regex_field m (r_name r) || regex_field m (r_description r)
  | None => true
  end.

(** [sort({ createdAt: -1 })]. *)
Definition newest_first (a b : Resource) : Prop :=
  r_createdAt b ≤ r_createdAt a.

Global Instance newest_first_dec : RelDecision newest_first.
Proof. intros a b. unfold newest_first. apply _. Defined.

(** [limit(n)] of the store: 0 is no limit, a negative [n] limits to its
    absolute value. *)
Definition apply_limit {A} (n : Z) (l : list A) : list A :=
  if n =? 0 then l else take (Z.abs_nat n) l.

(** The documents a filter selects, in the order of the sort.  The order
    of two documents created at the same instant is the store's choice,
    and need not be the same from one query to the next; here it is their
    order of insertion.  The theorems that depend on it take the instants
    to be distinct. *)
Definition matching (f : CastFilter) (st : Store) : list Resource :=
  merge_sort newest_first (filter (λ r, resource_matches f r) (resources st)).

(** [Resource.find(query).sort({ createdAt: -1 }).limit(limit).skip(skip)]:
    the store skips first, then limits. *)
Definition Resource_find_page (f : ResourceFilter) (limit skip : Z)
    (st : Store) : Mongo (list Resource) :=
  await cf ← cast_filter f;
  if skip <? 0 then Some (Throw (BadSkip skip))
  else Some (Ok (apply_limit limit (drop (Z.to_nat skip) (matching cf st)))).

(** [Resource.countDocuments(query)]. *)
Definition Resource_countDocuments (f : ResourceFilter) (st : Store)
  : Mongo nat :=
  await cf ← cast_filter f;
  Some (Ok (length (matching cf st))).

(** [GET /api/resources]. *)
Definition get_resources (q : ResourcesQuery) (st : Store) : option Response :=
  try_catch (
    let page := default 1 (rq_page q) in
    let limit := default 20 (rq_limit q) in
    let query := resources_query q in
    let skip := (page - 1) * limit in
    await found ← Resource_find_page query limit skip st;
    await total ← Resource_countDocuments query st;
    Some (Ok (Reply 200
      (J_resources (length found) total page
                   (ceil_div (Z.of_nat total) limit) found)))).

(** [GET /api/resources/:id].  [resource.views += 1] adds as JavaScript
    does; [save()] writes a document with a modified path, at the instant
    of the write, and nothing when the sum is the value that was there. *)
Definition get_resource (now : Z) (id : Id) (st : Store) : Response * Store :=
  match Resource_findById id st with
  | None => (Reply 404 (J_message false "Resource not found"), st)
  | Some (_, resource) =>
      let sum := js_add (views resource) 1 in
      if bool_decide (sum = views resource)
      then (Reply 200 (J_resource resource), st)
      else
        let resource := set_views now sum resource in
        let st1 := Resource_save resource st in
        (Reply 200 (J_resource resource), st1)
  end.

(** [POST /api/resources]. *)
Definition post_resources (now : Z) (body : ResourceBody) (st : Store)
  : Response * Store :=
  let '(resource, st1) := Resource_create now body st in
  let st2 := Subject_findOneAndUpdate_inc now (subject resource) 1 st1 in
  (Reply 201 (J_resource resource), st2).

(** [PUT /api/resources/:id]. *)
Definition put_resource (now : Z) (id : Id) (body : ResourceBody) (st : Store)
  : Response * Store :=
  match Resource_findByIdAndUpdate now id body st with
  | (None, st1) => (Reply 404 (J_message false "Resource not found"), st1)
  | (Some resource, st1) => (Reply 200 (J_resource resource), st1)
  end.

(** [DELETE /api/resources/:id]. *)
Definition delete_resource (now : Z) (id : Id) (st : Store)
  : Response * Store :=
  match Resource_findByIdAndDelete id st with
  | (None, st1) => (Reply 404 (J_message false "Resource not found"), st1)
  | (Some resource, st1) =>
      let st2 := Subject_findOneAndUpdate_inc now (subject resource) (-1) st1 in
      (Reply 200 (J_message true "Resource deleted"), st2)
  end.

(** [POST /api/resources/:id/download], with [resource.downloads += 1] and
    [save()] as in [get_resource]. *)
Definition post_download (now : Z) (id : Id) (st : Store) : Response * Store :=
  match Resource_findById id st with
  | None => (Reply 404 (J_message false "Resource not found"), st)
  | Some (_, resource) =>
      let sum := js_add (downloads resource) 1 in
      if bool_decide (sum = downloads resource)
      then (Reply 200 (J_downloads (downloads resource)), st)
      else
        let resource := set_downloads now sum resource in
        let st1 := Resource_save resource st in
        (Reply 200 (J_downloads (downloads resource)), st1)
  end.

(** ** Stats (server.js, lines 215-235) *)

(** [$group] with [$sum]: no group, hence 0, on an empty collection.  The
    store sums integers exactly and doubles as doubles; this is its sum
    while the magnitudes of the terms add up to less than 2^53. *)
Definition sum_of (f : Resource → Z) (l : list Resource) : Z :=
  foldr (λ r acc, f r + acc) 0 l.

(** [GET /api/stats]. *)
Definition get_stats (st : Store) : Response :=
  let subjectCount := length (subjects st) in
  let resourceCount := length (resources st) in
  let totalDownloads := sum_of downloads (resources st) in
  let totalViews := sum_of views (resources st) in
  Reply 200 (J_stats subjectCount resourceCount totalDownloads totalViews).

(** ** The application: middleware and routes in the order of server.js *)

Inductive Method := GET | HEAD | POST | PUT | DELETE | PATCH | OPTIONS.

Global Instance Method_eq_dec : EqDecision Method.
Proof. solve_decision. Defined.

(** What the request brings to the middleware: its method, the segments of
    its path as they are in the URL (between the slashes, a closing slash
    dropped, escapes not decoded) and whether [express.json()] fails on
    its body. *)
Record Request := mkRequest {
  method : Method;
  path : list string;
  body_fails : bool
}.

(** The [build] directory: the paths [express.static] has something to
    send for. *)
Record Env := mkEnv {
  serves : list string → bool
}.

Inductive Seg := Fixed (s : string) | Param.

Inductive Route :=
| Health | SubjectsList | SubjectBySlug | SubjectCreate | SubjectUpdate
| SubjectDelete | ResourcesList | ResourceGet | ResourceCreate
| ResourceUpdate | ResourceDelete | ResourceDownload | Stats.

(** The routes, as server.js registers them. *)
Definition routes : list (Method * list Seg * Route) :=
  [ (GET,    [Fixed "api"; Fixed "health"], Health);
    (GET,    [Fixed "api"; Fixed "subjects"], SubjectsList);
    (GET,    [Fixed "api"; Fixed "subjects"; Param], SubjectBySlug);
    (POST,   [Fixed "api"; Fixed "subjects"], SubjectCreate);
    (PUT,    [Fixed "api"; Fixed "subjects"; Param], SubjectUpdate);
    (DELETE, [Fixed "api"; Fixed "subjects"; Param], SubjectDelete);
    (GET,    [Fixed "api"; Fixed "resources"], ResourcesList);
    (GET,    [Fixed "api"; Fixed "resources"; Param], ResourceGet);
    (POST,   [Fixed "api"; Fixed "resources"], ResourceCreate);
    (PUT,    [Fixed "api"; Fixed "resources"; Param], ResourceUpdate);
    (DELETE, [Fixed "api"; Fixed "resources"; Param], ResourceDelete);
    (POST,   [Fixed "api"; Fixed "resources"; Param; Fixed "download"],
             ResourceDownload);
    (GET,    [Fixed "api"; Fixed "stats"], Stats) ].

(** A path against a route's pattern: fixed segments ignore case, a
    parameter takes one segment that is not empty.  The result is the
    segments the parameters took, as they are in the URL. *)
Fixpoint match_path (pat : list Seg) (p : list string) : option (list string) :=
  match pat, p with
  | [], [] => Some []
  | Fixed s :: pat', x :: p' =>
      if String.eqb (lower_string x) s then match_path pat' p' else None
  | Param :: pat', x :: p' =>
      if String.eqb x "" then None else cons x <$> match_path pat' p'
  | _, _ => None
  end.

(** A route registered with [app.get] also takes HEAD requests. *)
Definition handles (registered asked : Method) : bool :=
  bool_decide (registered = asked) ||
  (bool_decide (registered = GET) && bool_decide (asked = HEAD)).

(** The first route registered for the method with a pattern the path
    matches. *)
Fixpoint find_route (table : list (Method * list Seg * Route))
    (m : Method) (p : list string) : option (Route * list string) :=
  match table with
  | [] => None
  | (rm, pat, r) :: rest =>
      if handles rm m then
        match match_path pat p with
        | Some params => Some (r, params)
        | None => find_route rest m p
        end
      else find_route rest m p
  end.

(** The routes as the router of Express goes through them.  A route
    whose pattern the path matches has its parameters decoded before its
    method is looked at; when one does not decode, the request carries
    the error from then on and no later route takes it ([None]).
    Otherwise the first such route registered for the method takes the
    request with the decoded parameters, if there is one. *)
Fixpoint route_layers (table : list (Method * list Seg * Route))
    (m : Method) (p : list string) : option (option (Route * list string)) :=
  match table with
  | [] => Some None
  | (rm, pat, r) :: rest =>
      match match_path pat p with
      | Some raw =>
          match mapM decodeURIComponent raw with
          | Some params =>
              if handles rm m then Some (Some (r, params))
              else route_layers rest m p
          | None => None
          end
      | None => route_layers rest m p
      end
  end.

(** A request is either answered by the middleware or handed, with its
    path parameters, to the handler of a route. *)
Inductive Served :=
| Answered (r : Response)
| Routed (r : Route) (params : list string).

Definition something_went_wrong : Response :=
  Reply 500 (J_message false "Something went wrong!").

Definition route_not_found : Response :=
  Reply 404 (J_message false "Route not found").

Definition app (env : Env) (req : Request) : Served :=
  (* app.use(cors()): a preflight is answered at once *)
  if bool_decide (method req = OPTIONS) then Answered (Empty 204)
  (* app.use(express.json()): a failure goes to the error middleware *)
  else if body_fails req then Answered something_went_wrong
  else
    match route_layers routes (method req) (path req) with
    (* a parameter that does not decode: the error middleware *)
    | None => Answered something_went_wrong
    | Some (Some (r, params)) => Routed r params
    | Some None =>
        (* app.use(express.static(build)) *)
        if handles GET (method req) && serves env (path req)
        then Answered (File ("build" :: path req))
        else
          (* app.get('/*') takes every path, and decodes what it took
             before its method is looked at *)
          match decodeURIComponent (String.concat "/" (path req)) with
          | None => Answered something_went_wrong
          | Some _ =>
              if handles GET (method req) then
                (* sendFile(build/index.html) *)
                if serves env ["index.html"]
                then Answered (File ["build"; "index.html"])
                else Answered something_went_wrong
              else
                (* the last app.use *)
                Answered route_not_found
          end
    end.

(** ** Sequences of calls *)

Inductive Call :=
| CreateSubject (now : Z) (body : SubjectBody)
| UpdateSubject (now : Z) (id : Id) (body : SubjectBody)
| DeleteSubject (id : Id)
| CreateResource (now : Z) (body : ResourceBody)
| UpdateResource (now : Z) (id : Id) (body : ResourceBody)
| DeleteResource (now : Z) (id : Id)
| FetchResource (now : Z) (id : Id)
| RecordDownload (now : Z) (id : Id).

Definition serve (c : Call) (st : Store) : Response * Store :=
  match c with
  | CreateSubject now body => post_subjects now body st
  | UpdateSubject now id body => put_subject now id body st
  | DeleteSubject id => delete_subject id st
  | CreateResource now body => post_resources now body st
  | UpdateResource now id body => put_resource now id body st
  | DeleteResource now id => delete_resource now id st
  | FetchResource now id => get_resource now id st
  | RecordDownload now id => post_download now id st
  end.

Fixpoint run (cs : list Call) (st : Store) : Store :=
  match cs with
  | [] => st
  | c :: cs' => run cs' (serve c st).2
  end.

Definition reachable (st : Store) : Prop :=
  ∃ cs, st = run cs empty_store.

Definition counters_nonneg (st : Store) : Prop :=
  Forall (λ s, 0 ≤ resourceCount s) (subjects st) ∧
  Forall (λ r, 0 ≤ downloads r ∧ 0 ≤ views r) (resources st).

(** Only Resource creations and deletions. *)
Definition resource_traffic (cs : list Call) : Prop :=
  Forall (λ c, match c with
               | CreateResource _ _ | DeleteResource _ _ => True
               | _ => False
               end) cs.

(** N: the creations in [cs] of a Resource whose [subject] is [name]. *)
Fixpoint creates_for (name : option string) (cs : list Call) : Z :=
  match cs with
  | [] => 0
  | CreateResource _ b :: cs' =>
      (if bool_decide (rb_subject b = name) then 1 else 0)
      + creates_for name cs'
  | _ :: cs' => creates_for name cs'
  end.

(** M: the deletions in [cs], served from [st] on, that remove a Resource
    whose [subject] is [name]. *)
Fixpoint deletes_for (name : option string) (cs : list Call) (st : Store) : Z :=
  match cs with
  | [] => 0
  | c :: cs' =>
      match c with
      | DeleteResource _ id =>
          match Resource_findById id st with
          | Some (_, r) => if bool_decide (subject r = name) then 1 else 0
          | None => 0
          end
      | _ => 0
      end + deletes_for name cs' (serve c st).2
  end.

(** No Subject before position [i] has the name. *)
Definition first_named (name : option string) (i : nat) (st : Store) : Prop :=
  ∀ j s, (j < i)%nat → subjects st !! j = Some s → s_name s ≠ name.

(** A number of magnitude below 2^53, on which adding 1 is exact. *)
Definition safe (n : Z) : Prop := Z.abs n < 2 ^ 53.

(** ** The Resources that name a Subject *)

(** The number of Resources of the store whose [subject] is [name]. *)
Definition live_count (name : option string) (st : Store) : Z :=
  Z.of_nat (length (filter (λ r, subject r = name) (resources st))).

(** ** Calls that keep the counters from going below zero *)

Definition no_negative (o : option Z) : Prop :=
  ∀ n, o = Some n → 0 ≤ n.

(** A call that keeps each [resourceCount] in step with the Resources it
    counts: its body, a body of field values as every body of the
    embedding, sets no negative counter; a Subject is created under
    a name no Resource bears, and deleted when no Resource bears its
    name; an update of a Subject leaves its [name] and its
    [resourceCount], and an update of a Resource its [subject]. *)
Definition disciplined (c : Call) (st : Store) : Prop :=
  match c with
  | CreateSubject _ b =>
      no_negative (sb_resourceCount b) ∧ live_count (sb_name b) st = 0
  | UpdateSubject _ _ b => sb_name b = None ∧ sb_resourceCount b = None
  | DeleteSubject id =>
      ∀ i s, Subject_findById id st = Some (i, s) →
             live_count (s_name s) st = 0
  | CreateResource _ b =>
      no_negative (rb_downloads b) ∧ no_negative (rb_views b)
  | UpdateResource _ _ b =>
      rb_subject b = None ∧
      no_negative (rb_downloads b) ∧ no_negative (rb_views b)
  | DeleteResource _ _ | FetchResource _ _ | RecordDownload _ _ => True
  end.

(** The [resourceCount] of the Subject that [findOne] meets for a name is
    at least the number of Resources that bear the name. *)
Definition counts_cover (st : Store) : Prop :=
  ∀ name i s,
    Subject_findOne_name name st = Some (i, s) →
    live_count name st ≤ resourceCount s.

Fixpoint disciplined_run (cs : list Call) (st : Store) : Prop :=
  match cs with
  | [] => True
  | c :: cs' => disciplined c st ∧ disciplined_run cs' (serve c st).2
  end.

(** ** The words of the specification on searching *)

(** A pattern of ordinary characters only. *)
Fixpoint ordinary (p : string) : bool :=
  match p with
  | EmptyString => true
  | String c p' => negb (metachar c) && ordinary p'
  end.

Fixpoint literal (p : string) : list Atom :=
  match p with
  | EmptyString => []
  | String c p' => Lit c :: literal p'
  end.

(** A string of ASCII characters only. *)
Fixpoint ascii_string (s : string) : bool :=
  match s with
  | EmptyString => true
  | String c s' => (code c <? 128) && ascii_string s'
  end.

(** The words of the specification: [hay] contains [needle] as a
    substring, letters compared without their case. *)
Definition contains_ci (needle hay : string) : Prop :=
  ∃ pre mid post,
    hay = String.append pre (String.append mid post) ∧
    lower_string mid = lower_string needle.

(** What a regular expression engine does with a pattern of ordinary
    ASCII characters: it searches an ASCII string for the pattern itself,
    letters compared without their case. *)
Definition literal_engine : Prop :=
  ∀ p, ordinary p = true → ascii_string p = true →
    ∃ m, pcre p = Some m ∧
         ∀ s, ascii_string s = true → (m s = true ↔ contains_ci p s).

(** The category a query asks for: none when it is absent, empty or
    ['all']. *)
Definition in_category (q : SubjectsQuery) (s : Subject) : Prop :=
  match sq_category q with
  | Some c => c = "" ∨ c = "all" ∨ s_category s = Some c
  | None => True
  end.

(** The Subjects a query selects, its search string being a pattern for
    the engine. *)
Definition matched (q : SubjectsQuery) (s : Subject) : Prop :=
  in_category q s ∧
  match sq_search q with
  | Some p => p = "" ∨ ∃ m n, pcre p = Some m ∧ s_name s = Some n ∧ m n = true
  | None => True
  end.

(** The Subjects the specification expects for a query: no filter on the
    category when it is absent, empty or ['all'], and the name containing
    the search string. *)
Definition selected (q : SubjectsQuery) (s : Subject) : Prop :=
  match sq_category q with
  | Some c => c = "" ∨ c = "all" ∨ s_category s = Some c
  | None => True
  end ∧
  match sq_search q with
  | Some p => p = "" ∨ ∃ n, s_name s = Some n ∧ contains_ci p n
  | None => True
  end.

(** ** Sample data *)

Definition subject_body (name : string) : SubjectBody :=
  mkSubjectBody (Some name) None None None None None.

Definition resource_body (name subj : string) : ResourceBody :=
  mkResourceBody (Some name) (Some subj) None None None None None None None.

(** A Resource "Calc Notes" of "Math", created at instant 10. *)
Definition calc_store : Store :=
  (post_resources 10 (resource_body "Calc Notes" "Math")
     (post_subjects 5 (subject_body "Math") empty_store).2).2.



(** The scenario of the specification: Subject "Math", a Resource of
    "Math" created and deleted again. *)
Definition math_store : Store :=
  (post_subjects 5 (subject_body "Math") empty_store).2.

Definition create_then_delete : list Call :=
  [CreateResource 10 (resource_body "Calc Notes" "Math");
   DeleteResource 11 1%nat].

Definition busy_day : list Call :=
  [CreateSubject 1 (subject_body "Math");
   CreateResource 2 (resource_body "Calc Notes" "Math");
   FetchResource 3 1%nat;
   RecordDownload 4 1%nat;
   DeleteResource 5 1%nat].

(** A Resource whose body sets [views] and [downloads] to 2^53. *)
Definition worn_body : ResourceBody :=
  mkResourceBody (Some "Calc Notes") (Some "Math") None None None None None
                 (Some (2 ^ 53)) (Some (2 ^ 53)).

Definition worn_store : Store :=
  run [CreateResource 10 worn_body] empty_store.

Definition no_files : Env := mkEnv (λ _, false).

Definition index_only : Env :=
  mkEnv (λ p, bool_decide (p = ["index.html"])).

Definition biology : Subject := new_subject 0%nat 1 (subject_body "Biology").
Definition chemistry : Subject := new_subject 1%nat 2 (subject_body "Chemistry").
Definition biochemistry : Subject :=
  new_subject 2%nat 3 (subject_body "Biochemistry").

Definition science : Store :=
  run [CreateSubject 1 (subject_body "Biology");
       CreateSubject 2 (subject_body "Chemistry");
       CreateSubject 3 (subject_body "Biochemistry")] empty_store.

(** Twenty-five Resources of "Math", created at the instants 1 to 25. *)
Definition library : Store :=
  run (map (λ n, CreateResource (Z.of_nat n) (resource_body "Note" "Math"))
           (seq 1 25)) empty_store.

Definition second_page : ResourcesQuery :=
  mkResourcesQuery (Some "Math") None (Some "") None (Some 2) (Some 10).

(** ** Identifiers of the documents *)

(** The [_id]s of a collection are distinct and were all handed out
    already. *)
Definition fresh_ids (st : Store) : Prop :=
  NoDup (s_id <$> subjects st) ∧
  NoDup (r_id <$> resources st) ∧
  Forall (λ s, (s_id s < next_id st)%nat) (subjects st) ∧
  Forall (λ r, (r_id r < next_id st)%nat) (resources st).

(** ** Listings page by page *)





(** The sum of the magnitudes of a counter over the Resources. *)
Definition sum_abs (f : Resource → Z) (l : list Resource) : Z :=
  sum_of (λ r, Z.abs (f r)) l.

(** ** More sample data *)

Definition with_slug (name slug : string) : SubjectBody :=
  mkSubjectBody (Some name) (Some slug) None None None None.


(** ** Parameters of a route *)

(** The number of parameters of a pattern. *)
Fixpoint holes (pat : list Seg) : nat :=
  match pat with
  | [] => 0
  | Param :: pat' => S (holes pat')
  | Fixed _ :: pat' => holes pat'
  end.

(** * Properties *)

(** ** Lookups after a write *)

Lemma find_after_put {A} (P : A → Prop) `{!∀ x, Decision (P x)}
    (l : list A) i x y :
  list_find P l = Some (i, x) → P y → list_find P (<[i := y]> l) = Some (i, y).
Proof.
  intros Hfind Hy. apply list_find_Some in Hfind as (Hi & _ & Hleast).
  apply list_find_insert_Some. right; left.
  split_and!; eauto using lookup_lt_Some.
Qed.

Lemma Resource_findById_id id st i r :
  Resource_findById id st = Some (i, r) → r_id r = id ∧ resources st !! i = Some r.
Proof. intros (? & ? & _)%list_find_Some. done. Qed.

Lemma Resource_save_found r r' i st :
  Resource_findById (r_id r') st = Some (i, r) →
  Resource_save r' st = with_resources (<[i := r']> (resources st)) st.
Proof. intros H. unfold Resource_save. by rewrite H. Qed.

Lemma Resource_findById_put id st i r r' :
  Resource_findById id st = Some (i, r) → r_id r' = id →
  Resource_findById id (with_resources (<[i := r']> (resources st)) st)
  = Some (i, r').
Proof. intros H Hid. unfold Resource_findById. simpl. by apply find_after_put with r. Qed.

(** ** Adding 1 in JavaScript *)

Lemma two_53 : 2 ^ 53 = 9007199254740992.
Proof. reflexivity. Qed.

Lemma to_double_safe z : safe z → to_double z = z.
Proof.
  unfold safe, to_double. intros Hz. by rewrite (proj2 (Z.ltb_lt _ _) Hz).
Qed.

(** Below 2^53 the sum is the sum of the integers. *)
Lemma js_add_safe v : safe v → js_add v 1 = v + 1.
Proof.
  unfold js_add. intros Hv.
  destruct (decide (safe (v + 1))) as [Hs|Hs]; [by apply to_double_safe|].
  unfold safe in *. rewrite two_53 in *.
  assert (v = 9007199254740991) as -> by lia. reflexivity.
Qed.

Lemma to_double_nonneg z : 0 ≤ z → 0 ≤ to_double z.
Proof.
  intros Hz. unfold to_double. rewrite Z.abs_eq by done.
  destruct (z <? 2 ^ 53) eqn:Hlt; [done|].
  apply Z.ltb_ge in Hlt. rewrite two_53 in Hlt.
  rewrite Z.sgn_pos, Z.mul_1_l by lia.
  assert (0 ≤ 2 ^ (Z.log2 z - 52)) by (apply Z.pow_nonneg; lia).
  assert (0 ≤ z / 2 ^ (Z.log2 z - 52)) by by apply Z_div_nonneg_nonneg.
  apply Z.mul_nonneg_nonneg; [|done].
  repeat case_match; lia.
Qed.

Lemma js_add_nonneg v : 0 ≤ v → 0 ≤ js_add v 1.
Proof. intros Hv. apply to_double_nonneg. lia. Qed.

(** What the two handlers that count do on a Resource they find, when the
    sum is not the value that was there. *)
Lemma get_resource_found now id st i r :
  Resource_findById id st = Some (i, r) →
  js_add (views r) 1 ≠ views r →
  get_resource now id st
  = (Reply 200 (J_resource (set_views now (js_add (views r) 1) r)),
     with_resources
       (<[i := set_views now (js_add (views r) 1) r]> (resources st)) st).
Proof.
  intros Hfind Hsum. destruct (Resource_findById_id _ _ _ _ Hfind) as [Hid _].
  unfold get_resource. rewrite Hfind, bool_decide_eq_false_2 by done.
  by rewrite (Resource_save_found r _ i) by (simpl; by rewrite Hid).
Qed.

Lemma post_download_found now id st i r :
  Resource_findById id st = Some (i, r) →
  js_add (downloads r) 1 ≠ downloads r →
  post_download now id st
  = (Reply 200 (J_downloads (js_add (downloads r) 1)),
     with_resources
       (<[i := set_downloads now (js_add (downloads r) 1) r]> (resources st))
       st).
Proof.
  intros Hfind Hsum. destruct (Resource_findById_id _ _ _ _ Hfind) as [Hid _].
  unfold post_download. rewrite Hfind, bool_decide_eq_false_2 by done.
  by rewrite (Resource_save_found r _ i) by (simpl; by rewrite Hid).
Qed.

(** ** Fetching one Resource *)

(** C2, as stated, fails: a Resource created with [views] at 2^53 is
    fetched with [views] still at 2^53, and the store is as it was: in
    JavaScript 2^53 + 1 is 2^53. *)
Lemma views_stay_at_2_53 :
  reachable worn_store ∧
  Resource_findById 0%nat worn_store
  = Some (0%nat, new_resource 0%nat 10 worn_body) ∧
  views (new_resource 0%nat 10 worn_body) = 2 ^ 53 ∧
  get_resource 20 0%nat worn_store
  = (Reply 200 (J_resource (new_resource 0%nat 10 worn_body)), worn_store).
Proof. split_and!; try reflexivity. by eexists. Qed.

(** C2, amended: a fetch by the id of a Resource in the store whose
    [views] is below 2^53 answers with the Resource of that id, its
    [views] one more than before, and stores it so, the other documents
    being as they were; on an id that is not in the store the answer is
    404 "Resource not found", and on a parameter that spells no id it is
    500; in both the store does not change. *)
Theorem get_resource_counts_view (now : Z) (p : IdParam) (st : Store) :
  (∀ id i r,
     p = ObjectId id → Resource_findById id st = Some (i, r) →
     safe (views r) →
     ∃ r' st',
       with_id (get_resource now) p st = (Reply 200 (J_resource r'), st') ∧
       r_id r = id ∧ r_id r' = id ∧
       views r' = views r + 1 ∧
       downloads r' = downloads r ∧
       Resource_findById id st' = Some (i, r') ∧
       (∀ j, j ≠ i → resources st' !! j = resources st !! j) ∧
       subjects st' = subjects st) ∧
  (∀ id,
     p = ObjectId id → Resource_findById id st = None →
     with_id (get_resource now) p st
     = (Reply 404 (J_message false "Resource not found"), st)) ∧
  (p = NotAnObjectId →
     with_id (get_resource now) p st
     = (Reply 500 (J_error (CastError "_id")), st)).
Proof.
  split_and!.
  - intros id i r -> Hfind Hsafe.
    destruct (Resource_findById_id _ _ _ _ Hfind) as [Hid _].
    pose proof (js_add_safe _ Hsafe) as Hsum.
    exists (set_views now (views r + 1) r),
           (with_resources
              (<[i := set_views now (views r + 1) r]> (resources st)) st).
    simpl. rewrite (get_resource_found now id st i r Hfind), Hsum by lia.
    split_and!; try done.
    + by apply Resource_findById_put with r.
    + intros j Hj. simpl. by rewrite list_lookup_insert_ne.
  - intros id -> Hnone. simpl. unfold get_resource. by rewrite Hnone.
  - by intros ->.
Qed.

Lemma get_resource_counts_view_witness :
  ∃ r' st',
    with_id (get_resource 20) (ObjectId 1%nat) calc_store
    = (Reply 200 (J_resource r'), st') ∧
    r_id (new_resource 1%nat 10 (resource_body "Calc Notes" "Math")) = 1%nat ∧
    r_id r' = 1%nat ∧
    views r' = 0 + 1 ∧
    downloads r' = 0 ∧
    Resource_findById 1%nat st' = Some (0%nat, r') ∧
    (∀ j, j ≠ 0%nat → resources st' !! j = resources calc_store !! j) ∧
    subjects st' = subjects calc_store.
Proof.
  apply (proj1 (get_resource_counts_view 20 (ObjectId 1%nat) calc_store)
           1%nat 0%nat
           (new_resource 1%nat 10 (resource_body "Calc Notes" "Math"))).
  - reflexivity.
  - reflexivity.
  - unfold safe. simpl. lia.
Defined.

(** ** Recording a download *)

(** C4, as stated, fails: two downloads of a Resource created with
    [downloads] at 2^53 both answer 2^53 and leave the store as it was. *)
Lemma downloads_stay_at_2_53 :
  reachable worn_store ∧
  Resource_findById 0%nat worn_store
  = Some (0%nat, new_resource 0%nat 10 worn_body) ∧
  post_download 20 0%nat worn_store
  = (Reply 200 (J_downloads (2 ^ 53)), worn_store) ∧
  post_download 30 0%nat (post_download 20 0%nat worn_store).2
  = (Reply 200 (J_downloads (2 ^ 53)), worn_store) ∧
  downloads (new_resource 0%nat 10 worn_body) = 2 ^ 53.
Proof. split_and!; try reflexivity. by eexists. Qed.

(** C4, amended: recording a download of a Resource in the store whose
    [downloads] is below 2^53 stores the Resource of that id with
    [downloads] one more than before and [views] as before, and answers
    with the new [downloads]; a second call, when that is below 2^53 too,
    answers with a greater value; on an id that is not in the store the
    answer is 404 "Resource not found", and on a parameter that spells no
    id it is 500; in both the store does not change. *)
Theorem post_download_counts (now now' : Z) (p : IdParam) (st : Store) :
  (∀ id i r,
     p = ObjectId id → Resource_findById id st = Some (i, r) →
     safe (downloads r) →
     ∃ r1 st1,
       with_id (post_download now) p st
       = (Reply 200 (J_downloads (downloads r + 1)), st1) ∧
       r_id r = id ∧
       Resource_findById id st1 = Some (i, r1) ∧
       downloads r1 = downloads r + 1 ∧
       views r1 = views r ∧
       (∀ j, j ≠ i → resources st1 !! j = resources st !! j) ∧
       subjects st1 = subjects st ∧
       (safe (downloads r + 1) →
        ∃ r2 st2,
          with_id (post_download now') p st1
          = (Reply 200 (J_downloads (downloads r + 2)), st2) ∧
          Resource_findById id st2 = Some (i, r2) ∧
          downloads r2 = downloads r + 2 ∧
          downloads r + 1 < downloads r + 2)) ∧
  (∀ id,
     p = ObjectId id → Resource_findById id st = None →
     with_id (post_download now) p st
     = (Reply 404 (J_message false "Resource not found"), st)) ∧
  (p = NotAnObjectId →
     with_id (post_download now) p st
     = (Reply 500 (J_error (CastError "_id")), st)).
Proof.
  split_and!.
  - intros id i r -> Hfind Hsafe.
    destruct (Resource_findById_id _ _ _ _ Hfind) as [Hid _].
    pose proof (js_add_safe _ Hsafe) as Hsum.
    set (r1 := set_downloads now (downloads r + 1) r).
    set (st1 := with_resources (<[i := r1]> (resources st)) st).
    assert (Hfind1 : Resource_findById id st1 = Some (i, r1))
      by by apply Resource_findById_put with r.
    exists r1, st1. simpl.
    rewrite (post_download_found now id st i r Hfind), Hsum by lia.
    split_and!; try done.
    { intros j Hj. simpl. by rewrite list_lookup_insert_ne. }
    intros Hsafe1. pose proof (js_add_safe _ Hsafe1) as Hsum1.
    set (r2 := set_downloads now' (downloads r + 2) r1).
    exists r2, (with_resources (<[i := r2]> (resources st1)) st1).
    rewrite (post_download_found now' id st1 i r1 Hfind1);
      change (downloads r1) with (downloads r + 1); rewrite Hsum1; [|lia].
    replace (downloads r + 1 + 1) with (downloads r + 2) by lia.
    split_and!; [done| |done|lia].
    by apply Resource_findById_put with r1.
  - intros id -> Hnone. simpl. unfold post_download. by rewrite Hnone.
  - by intros ->.
Qed.

Lemma post_download_counts_witness :
  ∃ r1 st1,
    with_id (post_download 20) (ObjectId 1%nat) calc_store
    = (Reply 200 (J_downloads (0 + 1)), st1) ∧
    r_id (new_resource 1%nat 10 (resource_body "Calc Notes" "Math")) = 1%nat ∧
    Resource_findById 1%nat st1 = Some (0%nat, r1) ∧
    downloads r1 = 0 + 1 ∧
    views r1 = 0 ∧
    (∀ j, j ≠ 0%nat → resources st1 !! j = resources calc_store !! j) ∧
    subjects st1 = subjects calc_store ∧
    (safe (0 + 1) →
     ∃ r2 st2,
       with_id (post_download 30) (ObjectId 1%nat) st1
       = (Reply 200 (J_downloads (0 + 2)), st2) ∧
       Resource_findById 1%nat st2 = Some (0%nat, r2) ∧
       downloads r2 = 0 + 2 ∧
       0 + 1 < 0 + 2).
Proof.
  apply (proj1 (post_download_counts 20 30 (ObjectId 1%nat) calc_store)
           1%nat 0%nat
           (new_resource 1%nat 10 (resource_body "Calc Notes" "Math"))).
  - reflexivity.
  - reflexivity.
  - unfold safe. simpl. lia.
Defined.

(** ** Creating a Subject *)

(** C8, as stated, fails: a body that sets [resourceCount] gives the new
    Subject that value. *)
Lemma post_subjects_count_from_body :
  post_subjects 5 (mkSubjectBody (Some "Math") None None None None (Some 7))
                empty_store
  = (Reply 201
       (J_subject (mkSubject 0%nat (Some "Math") None None None None 7 5 5)),
     mkStore [mkSubject 0%nat (Some "Math") None None None None 7 5 5] []
             1%nat)
  ∧ resourceCount (mkSubject 0%nat (Some "Math") None None None None 7 5 5)
    ≠ 0.
Proof. split; [reflexivity | discriminate]. Qed.

(** C8, amended: the Subject a create call stores and returns has
    [resourceCount] 0 when the body does not set [resourceCount], and the
    body's value when it does. *)
Theorem post_subjects_count_default (now : Z) (body : SubjectBody) (st : Store) :
  ∃ s,
    post_subjects now body st
    = (Reply 201 (J_subject s),
       mkStore (subjects st ++ [s]) (resources st) (S (next_id st))) ∧
    (sb_resourceCount body = None → resourceCount s = 0) ∧
    (∀ n, sb_resourceCount body = Some n → resourceCount s = n).
Proof.
  exists (new_subject (next_id st) now body).
  split_and!; [done | |]; simpl.
  - by intros ->.
  - by intros n ->.
Qed.

Lemma post_subjects_count_default_witness :
  ∃ s,
    post_subjects 5 (subject_body "Math") empty_store
    = (Reply 201 (J_subject s), mkStore ([] ++ [s]) [] 1%nat) ∧
    resourceCount s = 0.
Proof.
  destruct (post_subjects_count_default 5 (subject_body "Math") empty_store)
    as (s & Hpost & Hnone & _).
  exists s. split; [exact Hpost | exact (Hnone eq_refl)].
Defined.

(** ** The counter of a Subject *)

Lemma findOne_name_spec name st i s :
  Subject_findOne_name name st = Some (i, s) ↔
  subjects st !! i = Some s ∧ s_name s = name ∧ first_named name i st.
Proof.
  unfold Subject_findOne_name, first_named. rewrite list_find_Some.
  naive_solver.
Qed.


(** The [$inc] writes one Subject, the first with the name, and leaves the
    Resources alone. *)
Lemma inc_found now name delta st i s :
  Subject_findOne_name name st = Some (i, s) →
  Subject_findOneAndUpdate_inc now name delta st
  = with_subjects (<[i := inc_resourceCount now delta s]> (subjects st)) st.
Proof. intros H. unfold Subject_findOneAndUpdate_inc. by rewrite H. Qed.

Lemma inc_not_found now name delta st :
  Subject_findOne_name name st = None →
  Subject_findOneAndUpdate_inc now name delta st = st.
Proof. intros H. unfold Subject_findOneAndUpdate_inc. by rewrite H. Qed.

Lemma findOne_name_subjects name st st' :
  subjects st' = subjects st →
  Subject_findOne_name name st' = Subject_findOne_name name st.
Proof. unfold Subject_findOne_name. by intros ->. Qed.

(** What one [$inc] does to the Subjects, position by position. *)
Lemma inc_subjects now name delta st :
  match Subject_findOne_name name st with
  | Some (i, s) =>
      subjects (Subject_findOneAndUpdate_inc now name delta st)
      = <[i := inc_resourceCount now delta s]> (subjects st)
  | None =>
      subjects (Subject_findOneAndUpdate_inc now name delta st) = subjects st
  end.
Proof.
  destruct (Subject_findOne_name name st) as [[i s]|] eqn:H.
  - by rewrite (inc_found _ _ _ _ _ _ H).
  - by rewrite (inc_not_found _ _ _ _ H).
Qed.




(** ** The net effect of creations and deletions *)

Lemma inc_names now name delta st j :
  s_name <$> subjects (Subject_findOneAndUpdate_inc now name delta st) !! j
  = s_name <$> subjects st !! j.
Proof.
  pose proof (inc_subjects now name delta st) as Hinc.
  destruct (Subject_findOne_name name st) as [[i s]|] eqn:Hfind;
    rewrite Hinc; [|done].
  apply findOne_name_spec in Hfind as (Hi & _ & _).
  destruct (decide (j = i)) as [->|Hne].
  - rewrite list_lookup_insert_eq by by eapply lookup_lt_Some.
    by rewrite Hi.
  - by rewrite list_lookup_insert_ne.
Qed.

Lemma first_named_names name i st st' :
  (∀ j, s_name <$> subjects st' !! j = s_name <$> subjects st !! j) →
  first_named name i st → first_named name i st'.
Proof.
  intros Hnames Hfirst j s' Hlt Hj.
  specialize (Hnames j). rewrite Hj in Hnames. simpl in Hnames.
  destruct (subjects st !! j) as [s0|] eqn:Hj0; [|done].
  injection Hnames as ->. by eapply Hfirst.
Qed.

(** One [$inc] seen from the first Subject of a name: its counter moves by
    [delta] when the [$inc] is for its name and stays otherwise. *)
Lemma inc_at now name delta st i s :
  subjects st !! i = Some s → first_named (s_name s) i st →
  ∃ s',
    subjects (Subject_findOneAndUpdate_inc now name delta st) !! i = Some s' ∧
    s_name s' = s_name s ∧
    first_named (s_name s) i (Subject_findOneAndUpdate_inc now name delta st) ∧
    resourceCount s'
    = resourceCount s + (if bool_decide (name = s_name s) then delta else 0).
Proof.
  intros Hi Hfirst.
  assert (Hfirst' :
    first_named (s_name s) i (Subject_findOneAndUpdate_inc now name delta st))
    by (eapply first_named_names; [apply inc_names | done]).
  pose proof (inc_subjects now name delta st) as Hinc.
  case_bool_decide as Hname.
  - subst name.
    assert (Hfind : Subject_findOne_name (s_name s) st = Some (i, s))
      by by apply findOne_name_spec.
    rewrite Hfind in Hinc.
    exists (inc_resourceCount now delta s). split_and!; try done.
    rewrite Hinc. apply list_lookup_insert_eq. by eapply lookup_lt_Some.
  - exists s. split_and!; try done; [|lia].
    destruct (Subject_findOne_name name st) as [[j s0]|] eqn:Hfind;
      rewrite Hinc; [|done].
    apply findOne_name_spec in Hfind as (Hj & Hn & _).
    rewrite list_lookup_insert_ne; [done|]. intros ->. congruence.
Qed.


Lemma serve_resource_call c st i s :
  match c with
  | CreateResource _ _ | DeleteResource _ _ => True
  | _ => False
  end →
  subjects st !! i = Some s → first_named (s_name s) i st →
  ∃ s',
    subjects (serve c st).2 !! i = Some s' ∧
    s_name s' = s_name s ∧
    first_named (s_name s) i (serve c st).2 ∧
    resourceCount s'
    = resourceCount s + creates_for (s_name s) [c]
      - deletes_for (s_name s) [c] st.
Proof.
  intros Hc Hi Hfirst. destruct c as [| | |now b| |now id| |]; try done; simpl.
  - unfold post_resources. simpl.
    destruct (inc_at now (rb_subject b) 1 (Resource_create now b st).2 i s)
      as (s' & Hi' & Hn & Hf & Hcount); [done..|].
    exists s'. split_and!; try done. rewrite Hcount.
    repeat case_bool_decide; lia.
  - unfold delete_resource, Resource_findByIdAndDelete.
    destruct (Resource_findById id st) as [[p r]|] eqn:Hfind.
    + destruct (inc_at now (subject r) (-1)
                  (with_resources (delete p (resources st)) st) i s)
        as (s' & Hi' & Hn & Hf & Hcount); [done..|].
      exists s'. split_and!; try done. rewrite Hcount.
      repeat case_bool_decide; lia.
    + exists s. split_and!; try done. simpl. lia.
Qed.




(** ** Signs of the counters *)

(** C3, as stated, fails: a Resource of "Math" created before the Subject
    "Math" and deleted after it leaves that Subject with [resourceCount]
    -1; every state of the sequence is reached from the empty store. *)
Lemma resource_count_below_zero :
  let cs := [CreateResource 1 (resource_body "Calc Notes" "Math");
             CreateSubject 2 (subject_body "Math");
             DeleteResource 3 0%nat] in
  reachable (run cs empty_store) ∧
  run cs empty_store
  = mkStore [mkSubject 1%nat (Some "Math") None None None None (-1) 2 3] []
            2%nat ∧
  ¬ counters_nonneg (run cs empty_store).
Proof.
  split_and!.
  - by eexists.
  - reflexivity.
  - intros [Hs _]. apply Forall_cons in Hs as [Hneg _]. simpl in Hneg. lia.
Qed.

Lemma default_nonneg o d : no_negative o → 0 ≤ d → 0 ≤ default d o.
Proof. intros Ho Hd. destruct o as [n|]; simpl; [by apply Ho | done]. Qed.

Lemma inc_nonneg now name delta st :
  counters_nonneg st →
  (∀ i s, Subject_findOne_name name st = Some (i, s) →
          0 ≤ resourceCount s + delta) →
  counters_nonneg (Subject_findOneAndUpdate_inc now name delta st).
Proof.
  intros [Hs Hr] Hdelta. unfold Subject_findOneAndUpdate_inc.
  destruct (Subject_findOne_name name st) as [[i s]|] eqn:Hfind; [|done].
  split; [|done]. simpl. apply Forall_insert; [done|]. simpl. eauto.
Qed.

Lemma found_resource_nonneg id st p r :
  counters_nonneg st → Resource_findById id st = Some (p, r) →
  0 ≤ downloads r ∧ 0 ≤ views r.
Proof.
  intros [_ Hr] Hfind. apply Resource_findById_id in Hfind as [_ Hp].
  by apply (Forall_lookup_1 _ _ _ _ Hr Hp).
Qed.

(** Whether the handler finds its document; the 404 branch leaves the
    store as it is. *)
Ltac found_or_404 lookup p d H :=
  destruct lookup as [[p d]|] eqn:H; [|done].

(** The two handlers that count, on a Resource they find: the Resource is
    as it was but for the counter, which is the sum, and for the instant
    of its last write. *)
Lemma get_resource_store now id st p r :
  Resource_findById id st = Some (p, r) →
  ∃ r',
    (get_resource now id st).2
    = with_resources (<[p := r']> (resources st)) st ∧
    r_id r' = r_id r ∧ subject r' = subject r ∧
    downloads r' = downloads r ∧ views r' = js_add (views r) 1.
Proof.
  intros Hfind. destruct (Resource_findById_id _ _ _ _ Hfind) as [Hid Hp].
  destruct (decide (js_add (views r) 1 = views r)) as [Hsum|Hsum].
  - exists r. unfold get_resource. rewrite Hfind, bool_decide_eq_true_2 by done.
    split_and!; try done. simpl. destruct st as [ss rs n]. simpl in *.
    unfold with_resources. simpl. by rewrite list_insert_id.
  - eexists. rewrite (get_resource_found now id st p r Hfind Hsum).
    by split_and!.
Qed.

Lemma post_download_store now id st p r :
  Resource_findById id st = Some (p, r) →
  ∃ r',
    (post_download now id st).2
    = with_resources (<[p := r']> (resources st)) st ∧
    r_id r' = r_id r ∧ subject r' = subject r ∧
    downloads r' = js_add (downloads r) 1 ∧ views r' = views r.
Proof.
  intros Hfind. destruct (Resource_findById_id _ _ _ _ Hfind) as [Hid Hp].
  destruct (decide (js_add (downloads r) 1 = downloads r)) as [Hsum|Hsum].
  - exists r. unfold post_download.
    rewrite Hfind, bool_decide_eq_true_2 by done.
    split_and!; try done. simpl. destruct st as [ss rs n]. simpl in *.
    unfold with_resources. simpl. by rewrite list_insert_id.
  - eexists. rewrite (post_download_found now id st p r Hfind Hsum).
    by split_and!.
Qed.

(** *** The Resources that bear a name *)

Lemma filter_delete_length {A} (P : A → Prop) `{!∀ x, Decision (P x)}
    (l : list A) p x :
  l !! p = Some x →
  length (filter P l)
  = (length (filter P (delete p l)) + (if decide (P x) then 1 else 0))%nat.
Proof.
  intros Hp. rewrite delete_take_drop.
  rewrite <- (take_drop_middle l p x Hp) at 1.
  rewrite !filter_app, filter_cons, !length_app.
  destruct (decide (P x)); simpl; lia.
Qed.

Lemma filter_put_length {A} (P : A → Prop) `{!∀ x, Decision (P x)}
    (l : list A) p x y :
  l !! p = Some x → (P y ↔ P x) →
  length (filter P (<[p := y]> l)) = length (filter P l).
Proof.
  intros Hp Hxy.
  rewrite insert_take_drop by by eapply lookup_lt_Some.
  replace (filter P l) with (filter P (take p l ++ x :: drop (S p) l)%list)
    by by rewrite take_drop_middle.
  rewrite !filter_app, !filter_cons, !length_app.
  destruct (decide (P y)), (decide (P x)); simpl; tauto || lia.
Qed.

Lemma inc_resources now name delta st :
  resources (Subject_findOneAndUpdate_inc now name delta st) = resources st.
Proof.
  unfold Subject_findOneAndUpdate_inc.
  by destruct (Subject_findOne_name name st) as [[i s]|].
Qed.

Lemma live_count_step c st name :
  match c with
  | CreateResource _ _ | DeleteResource _ _ => True
  | _ => False
  end →
  live_count name (serve c st).2
  = live_count name st + creates_for name [c] - deletes_for name [c] st.
Proof.
  intros Hc. unfold live_count.
  destruct c as [| | |now b| |now id| |]; try done; simpl.
  - unfold post_resources. simpl. rewrite inc_resources. simpl.
    rewrite filter_app, length_app, filter_cons. simpl.
    case_bool_decide; [rewrite decide_True by done|rewrite decide_False by done];
      simpl; lia.
  - unfold delete_resource, Resource_findByIdAndDelete.
    destruct (Resource_findById id st) as [[p r]|] eqn:Hfind; simpl; [|lia].
    rewrite inc_resources. simpl.
    apply list_find_Some in Hfind as (Hp & _).
    rewrite (filter_delete_length _ (resources st) p r Hp).
    case_bool_decide; [rewrite decide_True by done|rewrite decide_False by done];
      lia.
Qed.

Lemma live_count_put name st p r r' :
  resources st !! p = Some r → subject r' = subject r →
  live_count name (with_resources (<[p := r']> (resources st)) st)
  = live_count name st.
Proof.
  intros Hp Hsubject. unfold live_count. simpl.
  by rewrite (filter_put_length _ _ p r r') by by rewrite ?Hsubject.
Qed.

(** A Resource of the store is one of those that bear its name. *)
Lemma live_count_positive st p r :
  resources st !! p = Some r → 1 ≤ live_count (subject r) st.
Proof.
  intros Hp. unfold live_count.
  rewrite (filter_delete_length _ (resources st) p r Hp).
  rewrite decide_True by done. lia.
Qed.

(** *** The Subject a name finds, after a write *)

Lemma findOne_same_names name st st' i s' :
  (∀ j, s_name <$> subjects st' !! j = s_name <$> subjects st !! j) →
  Subject_findOne_name name st' = Some (i, s') →
  ∃ s, Subject_findOne_name name st = Some (i, s).
Proof.
  intros Hnames (Hi & Hn & Hfirst)%findOne_name_spec.
  pose proof (Hnames i) as Hnames_i. rewrite Hi in Hnames_i. simpl in Hnames_i.
  destruct (subjects st !! i) as [s|] eqn:Hi0; [|done].
  injection Hnames_i as Hs. exists s. apply findOne_name_spec.
  split_and!; [done|congruence|].
  eapply first_named_names; [|done]. intros j. by rewrite Hnames.
Qed.

Lemma find_delete_other {A} (P : A → Prop) `{!∀ x, Decision (P x)}
    (l : list A) i0 x0 i x :
  l !! i0 = Some x0 → ¬ P x0 →
  list_find P (delete i0 l) = Some (i, x) →
  ∃ i', list_find P l = Some (i', x).
Proof.
  intros Hi0 Hx0. rewrite delete_take_drop.
  intros [Hl|(_ & Hnone & Hr)]%list_find_app_Some.
  - exists i. rewrite <- (take_drop_middle l i0 x0 Hi0).
    by apply list_find_app_l.
  - exists (S (i - length (take i0 l)) + length (take i0 l))%nat.
    rewrite <- (take_drop_middle l i0 x0 Hi0) at 1.
    rewrite list_find_app_r by done. simpl.
    rewrite decide_False by done. by rewrite Hr.
Qed.

(** *** One call *)

Lemma serve_disciplined c st :
  counters_nonneg st → counts_cover st → disciplined c st →
  counters_nonneg (serve c st).2 ∧ counts_cover (serve c st).2.
Proof.
  intros Hst Hcover Hc. pose proof Hst as [Hs Hr].
  destruct c as [now b|now id b|id|now b|now id b|now id|now id|now id]; simpl.
  - (* a Subject is created *)
    destruct Hc as [Hcount Hlive]. split.
    + split; [|done]. simpl. apply Forall_app. split; [done|].
      repeat constructor. simpl. by apply default_nonneg.
    + intros name i s. unfold Subject_findOne_name, live_count. simpl.
      intros [Hold|(_ & _ & Hnew)]%list_find_app_Some.
      * by apply (Hcover name i s).
      * simpl in Hnew. case_decide as Hname; [|done].
        injection Hnew as _ <-. simpl in *. subst name.
        unfold live_count in Hlive. rewrite Hlive.
        by apply default_nonneg.
  - (* a Subject is updated *)
    destruct Hc as [Hname Hcount].
    unfold put_subject, Subject_findByIdAndUpdate.
    found_or_404 (Subject_findById id st) i0 s0 Hfind.
    apply list_find_Some in Hfind as (Hi0 & _).
    assert (Hsame : ∀ j s',
      <[i0 := update_subject now b s0]> (subjects st) !! j = Some s' →
      ∃ s, subjects st !! j = Some s ∧ s_name s' = s_name s ∧
           resourceCount s' = resourceCount s).
    { intros j s'. destruct (decide (j = i0)) as [->|Hne].
      - rewrite list_lookup_insert_eq by by eapply lookup_lt_Some.
        intros [= <-]. exists s0. simpl. by rewrite Hname, Hcount.
      - rewrite list_lookup_insert_ne by done. intros Hj. by exists s'. }
    split.
    + split; [|done]. simpl. apply Forall_insert; [done|]. simpl.
      rewrite Hcount. simpl. by apply (Forall_lookup_1 _ _ _ _ Hs Hi0).
    + intros name i s' Hfind'.
      pose proof Hfind' as (Hi' & _)%findOne_name_spec. simpl in Hi'.
      destruct (Hsame i s' Hi') as (s & Hi & _ & Hcount').
      destruct (findOne_same_names name st
                  (with_subjects
                     (<[i0 := update_subject now b s0]> (subjects st)) st)
                  i s') as [s1 Hfind1]; [|done|].
      { intros j. simpl.
        destruct (<[i0 := update_subject now b s0]> (subjects st) !! j)
          as [sj|] eqn:Hj.
        - destruct (Hsame j sj Hj) as (s2 & Hj2 & Hn2 & _).
          rewrite Hj2. simpl. by rewrite Hn2.
        - apply lookup_ge_None in Hj. rewrite length_insert in Hj.
          by rewrite (proj2 (lookup_ge_None _ _) Hj). }
      pose proof Hfind1 as (Hi1 & _)%findOne_name_spec.
      rewrite Hi in Hi1. injection Hi1 as <-.
      rewrite Hcount'. by apply (Hcover name i s).
  - (* a Subject is deleted *)
    unfold delete_subject, Subject_findByIdAndDelete.
    found_or_404 (Subject_findById id st) i0 s0 Hfind.
    specialize (Hc i0 s0 Hfind).
    apply list_find_Some in Hfind as (Hi0 & _). split.
    + split; [|done]. simpl. by apply Forall_delete.
    + intros name i s Hfind'. unfold live_count. simpl.
      fold (live_count name st).
      destruct (decide (s_name s0 = name)) as [<-|Hname].
      * rewrite Hc. apply list_find_Some in Hfind' as (Hi & _). simpl in Hi.
        assert (s ∈ subjects st) as Hin.
        { eapply elem_of_sublist; [|apply (sublist_delete _ i0)].
          by eapply list_elem_of_lookup_2. }
        rewrite Forall_forall in Hs. by apply Hs.
      * unfold Subject_findOne_name in Hfind'. simpl in Hfind'.
        destruct (find_delete_other _ _ i0 s0 i s Hi0 Hname Hfind')
          as [i' Hfind0].
        by apply (Hcover name i' s).
  - (* a Resource is created *)
    destruct Hc as [Hd Hv]. split.
    + unfold post_resources. simpl. apply inc_nonneg.
      * split; [done|]. simpl. apply Forall_app. split; [done|].
        repeat constructor; simpl; by apply default_nonneg.
      * intros i s Hfind. apply findOne_name_spec in Hfind as (Hi & _).
        simpl in Hi. pose proof (Forall_lookup_1 _ _ _ _ Hs Hi). simpl in *. lia.
    + intros name i s' Hfind'.
      change (live_count name (serve (CreateResource now b) st).2
              ≤ resourceCount s').
      rewrite (live_count_step (CreateResource now b) st name I).
      destruct (findOne_same_names name (Resource_create now b st).2 _ i s'
                  (inc_names _ _ _ _) Hfind') as [s Hfind].
      pose proof Hfind as (Hi & Hn & Hfirst)%findOne_name_spec.
      subst name.
      destruct (inc_at now (rb_subject b) 1 (Resource_create now b st).2 i s
                  Hi Hfirst) as (s1 & Hi1 & _ & _ & Hcount).
      apply findOne_name_spec in Hfind' as (Hi' & _).
      simpl in Hi1, Hi'. rewrite Hi1 in Hi'. injection Hi' as <-.
      rewrite Hcount.
      pose proof (Hcover (s_name s) i s Hfind) as Hle.
      simpl. repeat case_bool_decide; try congruence; lia.
  - (* a Resource is updated *)
    destruct Hc as (Hsubject & Hd & Hv).
    unfold put_resource, Resource_findByIdAndUpdate.
    found_or_404 (Resource_findById id st) p r Hfind.
    destruct (found_resource_nonneg _ _ _ _ Hst Hfind).
    apply Resource_findById_id in Hfind as [_ Hp]. split.
    + split; [done|]. simpl. apply Forall_insert; [done|]. simpl.
      split; by apply default_nonneg.
    + intros name i s Hfind'. simpl.
      rewrite (live_count_put name st p r) by (simpl; by rewrite ?Hsubject).
      by apply (Hcover name i s).
  - (* a Resource is deleted *)
    split.
    + unfold delete_resource, Resource_findByIdAndDelete.
      found_or_404 (Resource_findById id st) p r Hfind.
      apply inc_nonneg.
      * split; [done|]. simpl. by apply Forall_delete.
      * intros i s Hname.
        apply Resource_findById_id in Hfind as [_ Hp].
        pose proof (live_count_positive st p r Hp).
        pose proof (Hcover (subject r) i s Hname). lia.
    + intros name i s' Hfind'.
      change (live_count name (serve (DeleteResource now id) st).2
              ≤ resourceCount s').
      rewrite (live_count_step (DeleteResource now id) st name I).
      simpl. unfold delete_resource, Resource_findByIdAndDelete in Hfind'.
      destruct (Resource_findById id st) as [[p r]|] eqn:Hfind.
      * simpl in Hfind'.
        destruct (findOne_same_names name
                    (with_resources (delete p (resources st)) st) _ i s'
                    (inc_names _ _ _ _) Hfind') as [s Hfind0].
        pose proof Hfind0 as (Hi & Hn & Hfirst)%findOne_name_spec.
        subst name.
        destruct (inc_at now (subject r) (-1)
                    (with_resources (delete p (resources st)) st) i s
                    Hi Hfirst) as (s1 & Hi1 & _ & _ & Hcount).
        apply findOne_name_spec in Hfind' as (Hi' & _).
        simpl in Hi1, Hi'. rewrite Hi1 in Hi'. injection Hi' as <-.
      rewrite Hcount.
        pose proof (Hcover (s_name s) i s Hfind0) as Hle.
        repeat case_bool_decide; try congruence; lia.
      * pose proof (Hcover name i s' Hfind'). lia.
  - (* a Resource is fetched *)
    destruct (Resource_findById id st) as [[p r]|] eqn:Hfind;
      [|unfold get_resource; by rewrite Hfind].
    destruct (get_resource_store now id st p r Hfind)
      as (r' & -> & _ & Hsubject & Hd' & Hv').
    destruct (found_resource_nonneg _ _ _ _ Hst Hfind) as [Hd Hv].
    apply Resource_findById_id in Hfind as [_ Hp]. split.
    + split; [done|]. simpl. apply Forall_insert; [done|].
      rewrite Hd', Hv'. split; [done|by apply js_add_nonneg].
    + intros name i s Hfind'. rewrite (live_count_put name st p r) by done.
      by apply (Hcover name i s).
  - (* a download is recorded *)
    destruct (Resource_findById id st) as [[p r]|] eqn:Hfind;
      [|unfold post_download; by rewrite Hfind].
    destruct (post_download_store now id st p r Hfind)
      as (r' & -> & _ & Hsubject & Hd' & Hv').
    destruct (found_resource_nonneg _ _ _ _ Hst Hfind) as [Hd Hv].
    apply Resource_findById_id in Hfind as [_ Hp]. split.
    + split; [done|]. simpl. apply Forall_insert; [done|].
      rewrite Hd', Hv'. split; [by apply js_add_nonneg|done].
    + intros name i s Hfind'. rewrite (live_count_put name st p r) by done.
      by apply (Hcover name i s).
Qed.

(** C3, amended: in every state reached from the empty store by calls
    whose bodies hold field values (no update operators) and set no
    negative counter, that create a Subject only under a name no
    Resource bears and delete one only when no Resource bears its name,
    and whose updates leave the [name] and the [resourceCount] of a
    Subject and the [subject] of a Resource, the [downloads] and [views]
    of every Resource and the [resourceCount] of every Subject are not
    negative. *)
Theorem counters_stay_nonneg (cs : list Call) :
  disciplined_run cs empty_store → counters_nonneg (run cs empty_store).
Proof.
  assert (Hgen : ∀ st, counters_nonneg st → counts_cover st →
                       disciplined_run cs st → counters_nonneg (run cs st)).
  { induction cs as [|c cs IH]; intros st Hst Hcover Hcs; [done|].
    destruct Hcs as [Hc Hcs]. simpl.
    destruct (serve_disciplined c st Hst Hcover Hc). by apply IH. }
  apply Hgen; [by split|]. by intros name i s Hfind.
Qed.

Lemma counters_stay_nonneg_witness :
  counters_nonneg (run busy_day empty_store).
Proof.
  apply (counters_stay_nonneg busy_day).
  simpl. split_and!; try done.
Defined.

(** ** Requests no route takes *)

Lemma match_path_params pat p ps :
  match_path pat p = Some ps →
  Forall (λ x, x ≠ "" ∧ x ∈ p) ps ∧
  length ps = holes pat.
Proof.
  revert p ps. induction pat as [|[lit|] pat IH]; intros [|x p] ps; simpl;
    try done.
  - by intros [= <-].
  - destruct (String.eqb (lower_string x) lit); [|done].
    intros [Hps Hlen]%IH. split; [|done].
    eapply Forall_impl; [done|]. intros y [? ?]. split; [done|by right].
  - destruct (String.eqb_spec x "") as [|Hx]; [done|].
    destruct (match_path pat p) as [ps'|] eqn:Hp; [|done].
    intros [= <-]. destruct (IH _ _ Hp) as [Hps Hlen]. split.
    + constructor; [split; [done|by left]|].
      eapply Forall_impl; [done|]. intros y [? ?]. split; [done|by right].
    + simpl. by rewrite Hlen.
Qed.

Lemma find_route_sound table m p r ps :
  find_route table m p = Some (r, ps) →
  ∃ rm pat,
    (rm, pat, r) ∈ table ∧ handles rm m = true ∧ match_path pat p = Some ps.
Proof.
  induction table as [|[[rm pat] r0] table IH]; [done|]. simpl.
  destruct (handles rm m) eqn:Hm.
  - destruct (match_path pat p) as [ps0|] eqn:Hp.
    + intros [= <- <-]. exists rm, pat. split_and!; [left|done..].
    + intros (rm' & pat' & ? & ? & ?)%IH. exists rm', pat'.
      split_and!; [by right|done..].
  - intros (rm' & pat' & ? & ? & ?)%IH. exists rm', pat'.
    split_and!; [by right|done..].
Qed.

Lemma find_route_is_Some table rm pat r m p ps :
  (rm, pat, r) ∈ table → handles rm m = true → match_path pat p = Some ps →
  is_Some (find_route table m p).
Proof.
  intros Hin Hm Hp. induction table as [|[[rm' pat'] r'] table IH].
  - by apply elem_of_nil in Hin.
  - simpl. apply elem_of_cons in Hin as [[= <- <- <-]|Hin].
    + by rewrite Hm, Hp.
    + destruct (handles rm' m); [destruct (match_path pat' p)|]; eauto.
Qed.

(** The router hands a request to a route that is registered for its
    method with a pattern its path matches, with the parameters
    decoded. *)
Lemma route_layers_sound table m p r ps :
  route_layers table m p = Some (Some (r, ps)) →
  ∃ rm pat raw,
    (rm, pat, r) ∈ table ∧ handles rm m = true ∧
    match_path pat p = Some raw ∧ mapM decodeURIComponent raw = Some ps.
Proof.
  induction table as [|[[rm pat] r0] table IH]; [done|]. simpl.
  assert (Hrest : route_layers table m p = Some (Some (r, ps)) →
    ∃ rm' pat' raw,
      (rm', pat', r) ∈ (rm, pat, r0) :: table ∧ handles rm' m = true ∧
      match_path pat' p = Some raw ∧ mapM decodeURIComponent raw = Some ps).
  { intros (rm' & pat' & raw & ? & ? & ? & ?)%IH. exists rm', pat', raw.
    split_and!; [by right|done..]. }
  destruct (match_path pat p) as [raw|] eqn:Hp; [|done].
  destruct (mapM decodeURIComponent raw) as [ps0|] eqn:Hraw; [|done].
  destruct (handles rm m) eqn:Hm; [|done].
  intros [= <- <-]. exists rm, pat, raw. split_and!; [left|done..].
Qed.

(** With a path whose segments decode, the router hands a request that no
    route is registered for to none. *)
Lemma route_layers_unmatched table m p :
  find_route table m p = None →
  Forall (λ x, is_Some (decodeURIComponent x)) p →
  route_layers table m p = Some None.
Proof.
  intros Hnone Hp. induction table as [|[[rm pat] r] table IH]; [done|].
  simpl in *. destruct (match_path pat p) as [raw|] eqn:Hraw.
  - assert (is_Some (mapM decodeURIComponent raw)) as [ps ->].
    { apply mapM_is_Some. apply match_path_params in Hraw as [Hraw _].
      rewrite Forall_forall in *. intros x Hx. apply Hp. by apply Hraw. }
    destruct (handles rm m); [done|]. by apply IH.
  - destruct (handles rm m); by apply IH.
Qed.

Lemma route_layers_not_routed m p :
  find_route routes m p = None →
  ∀ r ps, route_layers routes m p ≠ Some (Some (r, ps)).
Proof.
  intros Hnone r ps (rm & pat & raw & Hin & Hm & Hp & _)%route_layers_sound.
  destruct (find_route_is_Some _ _ _ _ _ _ _ Hin Hm Hp) as [x Hx]. congruence.
Qed.

Lemma handles_GET m : handles GET m = true ↔ m = GET ∨ m = HEAD.
Proof. destruct m; simpl; naive_solver. Qed.

(** C7, amended: a request that no route is registered for is answered,
    when its method is OPTIONS, with 204 by [cors()]; else, when
    [express.json()] fails on its body, with 500; else, when its path
    decodes, with 404 and [{ success: false, message: 'Route not found' }]
    for a method other than GET and HEAD, and for GET and HEAD with the
    file [express.static] has for the path, failing that with
    [build/index.html], and failing that with 500; else, when its path
    does not decode and [express.static] has no file for it, with 500. *)
Theorem unmatched_is_not_found (env : Env) (req : Request) :
  find_route routes (method req) (path req) = None →
  (method req = OPTIONS → app env req = Answered (Empty 204)) ∧
  (method req ≠ OPTIONS → body_fails req = true →
     app env req = Answered something_went_wrong) ∧
  (method req ≠ OPTIONS → body_fails req = false →
     Forall (λ x, is_Some (decodeURIComponent x)) (path req) →
     is_Some (decodeURIComponent (String.concat "/" (path req))) →
     (method req ≠ GET → method req ≠ HEAD →
        app env req
        = Answered (Reply 404 (J_message false "Route not found"))) ∧
     (method req = GET ∨ method req = HEAD →
        app env req
        = Answered (if serves env (path req) then File ("build" :: path req)
                    else if serves env ["index.html"]
                         then File ["build"; "index.html"]
                         else Reply 500
                                (J_message false "Something went wrong!")))) ∧
  (method req ≠ OPTIONS → body_fails req = false →
     decodeURIComponent (String.concat "/" (path req)) = None →
     serves env (path req) = false →
     app env req = Answered something_went_wrong).
Proof.
  intros Hroute. unfold app. split_and!.
  - intros ->. done.
  - intros Hopt ->. by rewrite bool_decide_eq_false_2.
  - intros Hopt Hbody Hsegs [whole Hwhole].
    rewrite bool_decide_eq_false_2, Hbody by done.
    rewrite (route_layers_unmatched _ _ _ Hroute Hsegs), Hwhole.
    split.
    + intros Hget Hhead.
      assert (handles GET (method req) = false) as ->; [|done].
      apply not_true_is_false. rewrite handles_GET. by intros [?|?].
    + intros Hm%handles_GET. rewrite Hm. simpl.
      by destruct (serves env (path req)), (serves env ["index.html"]).
  - intros Hopt Hbody Hwhole Hstatic.
    rewrite bool_decide_eq_false_2, Hbody, Hstatic, andb_false_r, Hwhole by done.
    pose proof (route_layers_not_routed _ _ Hroute) as Hnot.
    destruct (route_layers routes (method req) (path req)) as [[[r ps]|]|];
      [by destruct (Hnot r ps)|done..].
Qed.

(** ** Searching with a pattern of ordinary characters *)

Lemma append_empty s : String.append EmptyString s = s.
Proof. reflexivity. Qed.

Lemma append_String c a b :
  String.append (String c a) b = String c (String.append a b).
Proof. reflexivity. Qed.

Lemma regex_compile_ordinary p :
  ordinary p = true → regex_compile p = Some (literal p).
Proof.
  induction p as [|c p IH]; [done|]. simpl.
  intros [Hc Hp]%andb_true_iff. apply negb_true_iff in Hc.
  assert (Ascii.eqb c "." = false) as ->.
  { destruct (Ascii.eqb_spec c "."); [by subst|done]. }
  assert (Ascii.eqb c "\" = false) as ->.
  { destruct (Ascii.eqb_spec c "\"); [by subst|done]. }
  by rewrite Hc, IH.
Qed.

Lemma match_here_literal p s :
  match_here (literal p) s = true ↔
  ∃ mid post, s = String.append mid post ∧ lower_string mid = lower_string p.
Proof.
  revert s. induction p as [|c p IH]; intros s; simpl.
  - split; [intros _; by exists EmptyString, s|done].
  - destruct s as [|x s].
    + split; [done|]. intros (mid & post & Hs & Hmid).
      destruct mid; [discriminate Hmid|].
      rewrite append_String in Hs. discriminate Hs.
    + rewrite andb_true_iff, IH. split.
      * intros [Hx (mid & post & -> & Hmid)].
        apply Ascii.eqb_eq in Hx.
        exists (String x mid), post. rewrite append_String. simpl.
        by rewrite Hmid, Hx.
      * intros (mid & post & Hs & Hmid).
        destruct mid as [|y mid]; [discriminate Hmid|].
        rewrite append_String in Hs. injection Hs as -> ->.
        simpl in Hmid. injection Hmid as Hy Hmid.
        split; [apply Ascii.eqb_eq; by rewrite Hy|by exists mid, post].
Qed.

Lemma regex_search_spec pat s :
  regex_search pat s = true ↔
  ∃ pre suf, s = String.append pre suf ∧ match_here pat suf = true.
Proof.
  induction s as [|x s IH]; simpl.
  - rewrite orb_false_r. split.
    + intros H. by exists EmptyString, EmptyString.
    + intros (pre & suf & Hs & H). destruct pre.
      * rewrite append_empty in Hs. by subst suf.
      * rewrite append_String in Hs. discriminate Hs.
  - rewrite orb_true_iff, IH. split.
    + intros [H|(pre & suf & -> & H)].
      * by exists EmptyString, (String x s).
      * by exists (String x pre), suf.
    + intros (pre & suf & Hs & H). destruct pre as [|y pre].
      * left. rewrite append_empty in Hs. by subst suf.
      * right. rewrite append_String in Hs. injection Hs as -> ->.
        by exists pre, suf.
Qed.

(** On a pattern of ordinary characters the search of the examples is the
    search for a substring without regard to case. *)
Lemma regex_search_literal p s :
  regex_search (literal p) s = true ↔ contains_ci p s.
Proof.
  rewrite regex_search_spec. unfold contains_ci. split.
  - intros (pre & suf & -> & (mid & post & -> & Hmid)%match_here_literal).
    by exists pre, mid, post.
  - intros (pre & mid & post & -> & Hmid).
    exists pre, (String.append mid post). split; [done|].
    apply match_here_literal. by exists mid, post.
Qed.

(** ** The orders of the two listings *)

Lemma String_leb_iff a b :
  String.leb a b = true ↔ a = b ∨ OrderedTypeEx.String_as_OT.lt a b.
Proof.
  unfold String.leb.
  rewrite <- OrderedTypeEx.String_as_OT.cmp_eq,
          <- OrderedTypeEx.String_as_OT.cmp_lt.
  unfold OrderedTypeEx.String_as_OT.cmp.
  destruct (String.compare a b); naive_solver.
Qed.

Lemma String_leb_trans a b c :
  String.leb a b = true → String.leb b c = true → String.leb a c = true.
Proof.
  rewrite !String_leb_iff. intros [->|Hab] [->|Hbc]; auto.
  right. by eapply OrderedTypeEx.String_as_OT.lt_trans.
Qed.

Global Instance by_name_total : Total by_name.
Proof.
  intros a b. unfold by_name.
  destruct (s_name a) as [x|], (s_name b) as [y|]; simpl; auto.
  destruct (String.leb_total x y) as [->| ->]; auto.
Qed.

Global Instance by_name_trans : Transitive by_name.
Proof.
  intros a b c. unfold by_name.
  destruct (s_name a) as [x|], (s_name b) as [y|], (s_name c) as [z|];
    simpl; try done.
  rewrite !Is_true_true. apply String_leb_trans.
Qed.

Global Instance newest_first_total : Total newest_first.
Proof. intros a b. unfold newest_first. lia. Qed.

Global Instance newest_first_trans : Transitive newest_first.
Proof. intros a b c. unfold newest_first. lia. Qed.

(** ** Listing the Subjects *)

Lemma truthy_Some s : truthy (Some s) = negb (String.eqb s "").
Proof. done. Qed.

Lemma category_filter_spec q s :
  match sf_category (subjects_query q) with
  | Some c => bool_decide (s_category s = Some c)
  | None => true
  end = true ↔
  match sq_category q with
  | Some c => c = "" ∨ c = "all" ∨ s_category s = Some c
  | None => True
  end.
Proof.
  unfold subjects_query. simpl. destruct (sq_category q) as [c|]; [|done].
  rewrite truthy_Some. destruct (String.eqb_spec c "") as [->|Hc]; simpl.
  { naive_solver. }
  case_bool_decide as Hall; simpl.
  { injection Hall as ->. naive_solver. }
  rewrite bool_decide_eq_true. split; [by auto|].
  intros [?|[->|?]]; done.
Qed.

(** A search string the engine takes: what it selects. *)
Lemma search_filter_spec q :
  (∀ p, sq_search q = Some p → p = "" ∨ is_Some (pcre p)) →
  ∃ pat,
    compile_search (sf_name_regex (subjects_query q)) = Some (Ok pat) ∧
    ∀ s,
      match pat with
      | Some m => regex_field m (s_name s)
      | None => true
      end = true ↔
      match sq_search q with
      | Some p =>
          p = "" ∨ ∃ m n, pcre p = Some m ∧ s_name s = Some n ∧ m n = true
      | None => True
      end.
Proof.
  intros Hok. unfold subjects_query, compile_search. simpl.
  destruct (sq_search q) as [p|]; [|by exists None].
  rewrite truthy_Some. destruct (String.eqb_spec p "") as [->|Hp]; simpl.
  { exists None. naive_solver. }
  destruct (Hok p eq_refl) as [?|[m Hm]]; [done|]. rewrite Hm.
  exists (Some m). split; [done|]. intros s. unfold regex_field.
  destruct (s_name s) as [n|]; [|naive_solver]. split.
  - intros Hn. right. by exists m, n.
  - intros [?|(m' & n' & Hm' & [= <-] & Hn)]; [done|congruence].
Qed.

(** A search string the engine refuses. *)
Lemma search_filter_refused q p :
  sq_search q = Some p → p ≠ "" → pcre p = None →
  compile_search (sf_name_regex (subjects_query q))
  = Some (Throw (BadPattern p)).
Proof.
  intros Hq Hp Hnone. unfold subjects_query, compile_search. simpl.
  rewrite Hq, truthy_Some, (proj2 (String.eqb_neq p "")) by done. simpl.
  by rewrite Hnone.
Qed.

(** With an engine that reads a pattern of ordinary characters as the
    string itself, what such a search string selects is what the
    specification expects. *)
Lemma matched_selected q s :
  literal_engine →
  (∀ p, sq_search q = Some p → ordinary p = true ∧ ascii_string p = true) →
  (∀ n, s_name s = Some n → ascii_string n = true) →
  matched q s ↔ selected q s.
Proof.
  intros Hengine Hord Hascii. unfold matched, selected, in_category.
  destruct (sq_search q) as [p|]; [|done].
  destruct (Hord p eq_refl) as [Hp Hpa].
  destruct (Hengine p Hp Hpa) as (m & Hm & Hspec).
  split; intros [Hc [Hs|Hs]]; (split; [done|]); auto; right.
  - destruct Hs as (m' & n & Hm' & Hn & Hmn). exists n. split; [done|].
    apply Hspec; [by apply Hascii|congruence].
  - destruct Hs as (n & Hn & Hsub). exists m, n. split_and!; [done..|].
    apply Hspec; [by apply Hascii|done].
Qed.

(** C6, amended: the listing of the Subjects is sorted by name ascending;
    a category that is absent, empty or ['all'] filters nothing; the
    search string, when it is not empty, is given to the store as a
    pattern: when the store's engine refuses it the answer is 500, and
    else the listing has the Subjects of the category whose name holds a
    match of it.  With an engine that reads a pattern of ordinary ASCII
    characters as the string itself, such a search string selects, among
    the Subjects with an ASCII name, exactly those whose name contains
    it, letters compared without their case; and "bio" over "Biology",
    "Chemistry" and "Biochemistry" gives "Biochemistry", "Biology". *)
Theorem get_subjects_sorted_selected :
  (∀ q st,
     (∀ p, sq_search q = Some p → p ≠ "" → pcre p = None →
        get_subjects q st = Some (Reply 500 (J_error (BadPattern p)))) ∧
     ((∀ p, sq_search q = Some p → p = "" ∨ is_Some (pcre p)) →
      ∃ found,
        get_subjects q st = Some (Reply 200 (J_subjects (length found) found)) ∧
        StronglySorted by_name found ∧
        (∀ s, s ∈ found ↔ s ∈ subjects st ∧ matched q s) ∧
        (literal_engine →
         (∀ p, sq_search q = Some p →
               ordinary p = true ∧ ascii_string p = true) →
         ∀ s, (∀ n, s_name s = Some n → ascii_string n = true) →
              (s ∈ found ↔ s ∈ subjects st ∧ selected q s)))) ∧
  (literal_engine →
   get_subjects (mkSubjectsQuery None (Some "bio")) science
   = Some (Reply 200 (J_subjects 2 [biochemistry; biology]))).
Proof.
  split.
  - intros q st. split.
    { intros p Hq Hp Hnone. unfold get_subjects, Subject_find_sorted.
      by rewrite (search_filter_refused q p). }
    intros Hok. destruct (search_filter_spec q Hok) as (pat & Hpat & Hsearch).
    exists (merge_sort by_name
              (filter (λ s, subject_matches (sf_category (subjects_query q)) pat s)
                      (subjects st))).
    assert (Hfound : ∀ s,
      s ∈ merge_sort by_name
            (filter (λ s, subject_matches (sf_category (subjects_query q)) pat s)
                    (subjects st)) ↔
      s ∈ subjects st ∧ matched q s).
    { intros s. rewrite merge_sort_Permutation, list_elem_of_filter.
      unfold subject_matches, matched, in_category.
      rewrite Is_true_true, andb_true_iff, category_filter_spec, Hsearch.
      naive_solver. }
    split_and!.
    + unfold get_subjects, Subject_find_sorted. by rewrite Hpat.
    + apply StronglySorted_merge_sort; apply _.
    + done.
    + intros Hengine Hord s Hascii.
      by rewrite Hfound, (matched_selected q s).
  - intros Hengine.
    destruct (Hengine "bio" eq_refl eq_refl) as (m & Hm & Hspec).
    assert (Hbiology : m "Biology" = true).
    { apply Hspec; [done|]. by apply regex_search_literal. }
    assert (Hbiochemistry : m "Biochemistry" = true).
    { apply Hspec; [done|]. by apply regex_search_literal. }
    assert (Hchemistry : m "Chemistry" = false).
    { apply not_true_is_false. intros Hc%Hspec; [|done].
      by apply regex_search_literal in Hc. }
    unfold get_subjects, Subject_find_sorted, subjects_query, compile_search.
    simpl. rewrite Hm. simpl.
    change (subjects science) with [biology; chemistry; biochemistry].
    rewrite filter_cons_True
      by (unfold subject_matches, biology; simpl; by rewrite Hbiology).
    rewrite filter_cons_False
      by (unfold subject_matches, chemistry; simpl; rewrite Hchemistry;
          simpl; tauto).
    rewrite filter_cons_True
      by (unfold subject_matches, biochemistry; simpl;
          by rewrite Hbiochemistry).
    reflexivity.
Qed.

(** ** Listing the Resources *)





Lemma matching_length cf st :
  length (matching cf st)
  = length (filter (λ r, resource_matches cf r) (resources st)).
Proof. unfold matching. by rewrite merge_sort_Permutation. Qed.


(** *** What a query chooses *)






(** What the handler answers once the filter is cast and the skip is not
    negative. *)
Lemma get_resources_answer q st cf page limit :
  page = default 1 (rq_page q) →
  limit = default 20 (rq_limit q) →
  cast_filter (resources_query q) = Some (Ok cf) →
  0 ≤ (page - 1) * limit →
  get_resources q st
  = Some (Reply 200
      (J_resources
         (length (apply_limit limit
                    (drop (Z.to_nat ((page - 1) * limit)) (matching cf st))))
         (length (matching cf st)) page
         (ceil_div (Z.of_nat (length (matching cf st))) limit)
         (apply_limit limit
            (drop (Z.to_nat ((page - 1) * limit)) (matching cf st))))).
Proof.
  intros -> -> Hcast Hskip.
  unfold get_resources, Resource_find_page, Resource_countDocuments.
  rewrite Hcast. simpl. by rewrite (proj2 (Z.ltb_ge _ _)) by done.
Qed.


(** ** A year that is not a number *)

(** C10, amended: for every store, a listing of the Resources whose
    [year] is not empty and is not read by [parseInt] as a number fails:
    the filter is refused when it is cast against the schema and the
    answer is 500 with the error of the cast, whatever the other
    parameters are. *)
Theorem year_not_a_number_is_refused (q : ResourcesQuery) (st : Store)
    (y : string) :
  rq_year q = Some y → y ≠ "" → parseInt y = NaN →
  get_resources q st = Some (Reply 500 (J_error (CastError "year"))).
Proof.
  intros Hy Hne Hnan.
  unfold get_resources, Resource_find_page, cast_filter, resources_query.
  simpl. rewrite Hy, truthy_Some.
  rewrite (proj2 (String.eqb_neq y "")) by done. simpl. by rewrite Hnan.
Qed.

(** * Further properties of the handlers *)

(** ** Identifiers stay distinct *)

Section find.
Context {A : Type} (P : A → Prop) `{!∀ x, Decision (P x)}.

Lemma find_appended (l : list A) x :
  Forall (λ y, ¬ P y) l → P x → list_find P (l ++ [x]) = Some (length l, x).
Proof.
  intros Hl Hx. rewrite list_find_app_r by by apply list_find_None.
  simpl. by rewrite decide_True by done.
Qed.

Lemma find_not_appended (l : list A) x :
  ¬ P x → list_find P (l ++ [x]) = list_find P l.
Proof.
  intros Hx. destruct (list_find P l) as [[i y]|] eqn:Hfind.
  - by apply list_find_app_l.
  - rewrite list_find_app_r by done. simpl. by rewrite decide_False.
Qed.
End find.

Lemma find_deleted {A} (f : A → nat) (k : nat) (l : list A) i x :
  NoDup (f <$> l) →
  list_find (λ y, f y = k) l = Some (i, x) →
  list_find (λ y, f y = k) (delete i l) = None.
Proof.
  intros Hnd (Hi & Hx & _)%list_find_Some.
  apply list_find_None, Forall_forall. intros y Hy Hk.
  apply list_elem_of_lookup in Hy as [j Hj].
  assert (∃ j', j' ≠ i ∧ l !! j' = Some y) as (j' & Hne & Hj').
  { destruct (decide (j < i)%nat).
    - exists j. split; [lia|]. by rewrite list_lookup_delete_lt in Hj.
    - exists (S j). split; [lia|]. by rewrite list_lookup_delete_ge in Hj by lia. }
  apply Hne. apply (NoDup_lookup (f <$> l) j' i k); [done|..].
  - by rewrite list_lookup_fmap, Hj'; simpl; rewrite Hk.
  - by rewrite list_lookup_fmap, Hi; simpl; rewrite Hx.
Qed.

Lemma fmap_put {A B} (f : A → B) (l : list A) i x y :
  l !! i = Some x → f y = f x → f <$> <[i := y]> l = f <$> l.
Proof.
  intros Hi Hf. rewrite list_fmap_insert. apply list_insert_id.
  by rewrite list_lookup_fmap, Hi; simpl; rewrite Hf.
Qed.

Lemma fresh_put_subject st i s s' :
  fresh_ids st → subjects st !! i = Some s → s_id s' = s_id s →
  fresh_ids (with_subjects (<[i := s']> (subjects st)) st).
Proof.
  intros (Hs & Hr & Hsb & Hrb) Hi Hid. unfold fresh_ids. simpl.
  rewrite (fmap_put s_id _ _ s) by done. split_and!; try done.
  apply Forall_insert; [done|]. rewrite Hid.
  by apply (Forall_lookup_1 _ _ _ _ Hsb Hi).
Qed.

Lemma fresh_put_resource st i r r' :
  fresh_ids st → resources st !! i = Some r → r_id r' = r_id r →
  fresh_ids (with_resources (<[i := r']> (resources st)) st).
Proof.
  intros (Hs & Hr & Hsb & Hrb) Hi Hid. unfold fresh_ids. simpl.
  rewrite (fmap_put r_id _ _ r) by done. split_and!; try done.
  apply Forall_insert; [done|]. rewrite Hid.
  by apply (Forall_lookup_1 _ _ _ _ Hrb Hi).
Qed.

Lemma fresh_inc now name delta st :
  fresh_ids st → fresh_ids (Subject_findOneAndUpdate_inc now name delta st).
Proof.
  intros Hst. unfold Subject_findOneAndUpdate_inc.
  destruct (Subject_findOne_name name st) as [[i s]|] eqn:Hfind; [|done].
  apply list_find_Some in Hfind as (Hi & _). by apply fresh_put_subject with s.
Qed.

Lemma fresh_save r st :
  fresh_ids st → fresh_ids (Resource_save r st).
Proof.
  intros Hst. unfold Resource_save.
  destruct (Resource_findById (r_id r) st) as [[i r0]|] eqn:Hfind; [|done].
  apply list_find_Some in Hfind as (Hi & Hid & _).
  by apply fresh_put_resource with r0.
Qed.

Lemma fresh_appended (ids : list nat) n :
  NoDup ids → Forall (λ k, (k < n)%nat) ids → NoDup (ids ++ [n]).
Proof.
  intros Hnd Hlt. apply NoDup_app. split_and!; [done| |apply NoDup_singleton].
  intros k Hk ->%list_elem_of_singleton.
  rewrite Forall_forall in Hlt. specialize (Hlt _ Hk). lia.
Qed.

Lemma Forall_lt_S {A} (f : A → nat) n (l : list A) :
  Forall (λ x, (f x < n)%nat) l → Forall (λ x, (f x < S n)%nat) l.
Proof. intros Hl. eapply Forall_impl; [done|]. intros x Hx. simpl in *. lia. Qed.

Lemma fresh_Subject_create now b st :
  fresh_ids st → fresh_ids (Subject_create now b st).2.
Proof.
  intros (Hs & Hr & Hsb & Hrb). unfold fresh_ids. simpl.
  rewrite fmap_app. simpl. split_and!.
  - apply fresh_appended; [done | by apply Forall_fmap].
  - done.
  - apply Forall_app. split; [by apply Forall_lt_S|].
    apply Forall_singleton. simpl. lia.
  - by apply Forall_lt_S.
Qed.

Lemma fresh_Resource_create now b st :
  fresh_ids st → fresh_ids (Resource_create now b st).2.
Proof.
  intros (Hs & Hr & Hsb & Hrb). unfold fresh_ids. simpl.
  rewrite fmap_app. simpl. split_and!.
  - done.
  - apply fresh_appended; [done | by apply Forall_fmap].
  - by apply Forall_lt_S.
  - apply Forall_app. split; [by apply Forall_lt_S|].
    apply Forall_singleton. simpl. lia.
Qed.

Lemma fresh_delete_resource_at st i :
  fresh_ids st → fresh_ids (with_resources (delete i (resources st)) st).
Proof.
  intros (Hs & Hr & Hsb & Hrb). unfold fresh_ids. simpl.
  split_and!; try done.
  - rewrite list_fmap_delete. apply (sublist_NoDup _ _ Hr), sublist_delete.
  - by apply Forall_delete.
Qed.

Lemma fresh_delete_subject_at st i :
  fresh_ids st → fresh_ids (with_subjects (delete i (subjects st)) st).
Proof.
  intros (Hs & Hr & Hsb & Hrb). unfold fresh_ids. simpl.
  split_and!; try done.
  - rewrite list_fmap_delete. apply (sublist_NoDup _ _ Hs), sublist_delete.
  - by apply Forall_delete.
Qed.

Lemma fresh_serve c st : fresh_ids st → fresh_ids (serve c st).2.
Proof.
  intros Hst.
  destruct c as [now b|now id b|id|now b|now id b|now id|now id|now id]; simpl.
  - by apply fresh_Subject_create.
  - unfold put_subject, Subject_findByIdAndUpdate.
    found_or_404 (Subject_findById id st) i s Hfind.
    apply list_find_Some in Hfind as (Hi & _). by apply fresh_put_subject with s.
  - unfold delete_subject, Subject_findByIdAndDelete.
    found_or_404 (Subject_findById id st) i s Hfind.
    by apply fresh_delete_subject_at.
  - unfold post_resources. simpl.
    apply fresh_inc. by apply (fresh_Resource_create now b).
  - unfold put_resource, Resource_findByIdAndUpdate.
    found_or_404 (Resource_findById id st) p r Hfind.
    apply list_find_Some in Hfind as (Hi & _). by apply fresh_put_resource with r.
  - unfold delete_resource, Resource_findByIdAndDelete.
    found_or_404 (Resource_findById id st) p r Hfind.
    apply fresh_inc. by apply fresh_delete_resource_at.
  - destruct (Resource_findById id st) as [[p r]|] eqn:Hfind;
      [|unfold get_resource; by rewrite Hfind].
    destruct (get_resource_store now id st p r Hfind) as (r' & -> & Hid & _).
    apply Resource_findById_id in Hfind as [_ Hp].
    by apply fresh_put_resource with r.
  - destruct (Resource_findById id st) as [[p r]|] eqn:Hfind;
      [|unfold post_download; by rewrite Hfind].
    destruct (post_download_store now id st p r Hfind) as (r' & -> & Hid & _).
    apply Resource_findById_id in Hfind as [_ Hp].
    by apply fresh_put_resource with r.
Qed.

Lemma fresh_run cs st : fresh_ids st → fresh_ids (run cs st).
Proof.
  revert st. induction cs as [|c cs IH]; intros st Hst; [done|].
  simpl. by apply IH, fresh_serve.
Qed.

Lemma reachable_fresh_ids st : reachable st → fresh_ids st.
Proof.
  intros [cs ->]. apply fresh_run. repeat split; constructor.
Qed.

(** ** A Resource from its creation to its deletion *)

Lemma findById_resources id st st' :
  resources st' = resources st →
  Resource_findById id st' = Resource_findById id st.
Proof. unfold Resource_findById. by intros ->. Qed.

Lemma findById_created now body st :
  fresh_ids st →
  Resource_findById (next_id st) (Resource_create now body st).2
  = Some (length (resources st), new_resource (next_id st) now body).
Proof.
  intros (_ & _ & _ & Hlt). unfold Resource_findById. simpl.
  apply find_appended; [|done].
  eapply Forall_impl; [done|]. intros r Hr. simpl in *. lia.
Qed.

Lemma findById_posted now body st :
  fresh_ids st →
  Resource_findById (next_id st) (post_resources now body st).2
  = Some (length (resources st), new_resource (next_id st) now body).
Proof.
  intros Hst. unfold post_resources. simpl.
  rewrite (findById_resources _ _ _ (inc_resources _ _ _ _)).
  by apply findById_created.
Qed.


(** X1: in a state reached from the empty store, the Resource a create
    call answers with is found by a fetch of its identifier right after,
    which answers with it, its [views], when below 2^53, being the body's
    (0 when the body sets none) plus 1. *)
Theorem created_resource_is_fetched (now now' : Z) (body : ResourceBody)
    (st : Store) :
  reachable st →
  safe (default 0 (rb_views body)) →
  ∃ r st1 st2,
    post_resources now body st = (Reply 201 (J_resource r), st1) ∧
    get_resource now' (r_id r) st1
    = (Reply 200
         (J_resource (set_views now' (default 0 (rb_views body) + 1) r)),
       st2).
Proof.
  intros Hst%reachable_fresh_ids Hsafe.
  pose proof (findById_posted now body st Hst) as Hfind.
  pose proof (js_add_safe _ Hsafe) as Hsum.
  exists (new_resource (next_id st) now body),
         (post_resources now body st).2.
  eexists. split; [done|].
  change (r_id (new_resource (next_id st) now body)) with (next_id st).
  rewrite (get_resource_found now' _ _ _ _ Hfind);
    change (views (new_resource (next_id st) now body))
      with (default 0 (rb_views body));
    rewrite Hsum; [done|lia].
Qed.

Lemma created_resource_is_fetched_witness :
  ∃ r st1 st2,
    post_resources 20 (resource_body "Algebra" "Math") calc_store
    = (Reply 201 (J_resource r), st1) ∧
    get_resource 21 (r_id r) st1
    = (Reply 200 (J_resource (set_views 21 (0 + 1) r)), st2).
Proof.
  apply (created_resource_is_fetched 20 21 (resource_body "Algebra" "Math")
           calc_store).
  - exists [CreateSubject 5 (subject_body "Math");
            CreateResource 10 (resource_body "Calc Notes" "Math")].
    reflexivity.
  - unfold safe. simpl. lia.
Defined.




(** X3: in a state reached from the empty store, once a Resource is
    deleted its identifier finds nothing: a second deletion, a fetch, a
    download and an update all answer 404 "Resource not found" and leave
    the store as it is, so no Subject is decremented twice. *)
Theorem deleted_resource_is_gone (now now' : Z) (id : Id) (body : ResourceBody)
    (st : Store) (p : nat) (r : Resource) :
  reachable st →
  Resource_findById id st = Some (p, r) →
  ∃ st1,
    delete_resource now id st
    = (Reply 200 (J_message true "Resource deleted"), st1) ∧
    delete_resource now' id st1
    = (Reply 404 (J_message false "Resource not found"), st1) ∧
    get_resource now' id st1
    = (Reply 404 (J_message false "Resource not found"), st1) ∧
    post_download now' id st1
    = (Reply 404 (J_message false "Resource not found"), st1) ∧
    put_resource now' id body st1
    = (Reply 404 (J_message false "Resource not found"), st1).
Proof.
  intros (_ & Hnd & _)%reachable_fresh_ids Hfind.
  eexists. split.
  { unfold delete_resource, Resource_findByIdAndDelete. by rewrite Hfind. }
  match goal with |- context [delete_resource now' id ?s] => set (st1 := s) end.
  assert (Hgone : Resource_findById id st1 = None).
  { unfold st1. rewrite (findById_resources _ _ _ (inc_resources _ _ _ _)).
    unfold Resource_findById in *. simpl.
    exact (find_deleted r_id id _ p r Hnd Hfind). }
  unfold delete_resource, Resource_findByIdAndDelete, get_resource,
    post_download, put_resource, Resource_findByIdAndUpdate.
  by rewrite Hgone.
Qed.

Lemma deleted_resource_is_gone_witness :
  ∃ st1,
    delete_resource 20 1%nat calc_store
    = (Reply 200 (J_message true "Resource deleted"), st1) ∧
    delete_resource 21 1%nat st1
    = (Reply 404 (J_message false "Resource not found"), st1) ∧
    get_resource 21 1%nat st1
    = (Reply 404 (J_message false "Resource not found"), st1) ∧
    post_download 21 1%nat st1
    = (Reply 404 (J_message false "Resource not found"), st1) ∧
    put_resource 21 1%nat (resource_body "Algebra" "Math") st1
    = (Reply 404 (J_message false "Resource not found"), st1).
Proof.
  apply (deleted_resource_is_gone 20 21 1%nat (resource_body "Algebra" "Math")
           calc_store 0%nat
           (new_resource 1%nat 10 (resource_body "Calc Notes" "Math"))).
  - exists [CreateSubject 5 (subject_body "Math");
            CreateResource 10 (resource_body "Calc Notes" "Math")].
    reflexivity.
  - reflexivity.
Defined.

(** ** The counter against the Resources it counts *)

(** X4: when the [resourceCount] of the first Subject of a name equals the
    number of Resources that name it, it still does after every sequence
    of Resource creations and deletions. *)
Theorem live_count_kept (cs : list Call) (st : Store) (i : nat) (s : Subject) :
  resource_traffic cs →
  subjects st !! i = Some s →
  first_named (s_name s) i st →
  resourceCount s = live_count (s_name s) st →
  ∃ s',
    subjects (run cs st) !! i = Some s' ∧
    s_name s' = s_name s ∧
    resourceCount s' = live_count (s_name s) (run cs st).
Proof.
  revert st s. induction cs as [|c cs IH]; intros st s Hcs Hi Hfirst Hcount.
  - by exists s.
  - apply Forall_cons in Hcs as [Hc Hcs].
    destruct (serve_resource_call c st i s Hc Hi Hfirst)
      as (s1 & Hi1 & Hn1 & Hf1 & Hcount1).
    pose proof (live_count_step c st (s_name s) Hc) as Hlive.
    rewrite <- Hn1 in Hf1.
    destruct (IH (serve c st).2 s1 Hcs Hi1 Hf1) as (s' & Hi' & Hn' & Hcount').
    { rewrite Hn1. lia. }
    exists s'. rewrite Hn1 in Hn', Hcount'. by split_and!.
Qed.

Lemma live_count_kept_witness :
  ∃ s',
    subjects (run create_then_delete math_store) !! 0%nat = Some s' ∧
    s_name s' = Some "Math" ∧
    resourceCount s'
    = live_count (Some "Math") (run create_then_delete math_store).
Proof.
  apply (live_count_kept create_then_delete math_store 0%nat
           (new_subject 0%nat 5 (subject_body "Math"))).
  - repeat constructor.
  - reflexivity.
  - intros j s Hj. lia.
  - reflexivity.
Defined.

Lemma inc_subjects_ext now name delta st st' :
  subjects st' = subjects st →
  subjects (Subject_findOneAndUpdate_inc now name delta st')
  = subjects (Subject_findOneAndUpdate_inc now name delta st).
Proof.
  intros Heq.
  pose proof (inc_subjects now name delta st) as H.
  pose proof (inc_subjects now name delta st') as H'.
  rewrite (findOne_name_subjects _ _ _ Heq) in H'.
  destruct (Subject_findOne_name name st) as [[i s]|]; congruence.
Qed.

(** X5: an update of a Resource adjusts no [resourceCount], also when it
    changes the [subject]; the deletion that follows decrements the
    Subject the Resource names after the update, not the one it named
    when it was created. *)
Theorem moved_resource_decrements_new_subject (now now' : Z) (id : Id)
    (body : ResourceBody) (st : Store) (p : nat) (r : Resource) :
  Resource_findById id st = Some (p, r) →
  ∃ r' st1 st2,
    put_resource now id body st = (Reply 200 (J_resource r'), st1) ∧
    subject r' = overlay (rb_subject body) (subject r) ∧
    subjects st1 = subjects st ∧
    delete_resource now' id st1
    = (Reply 200 (J_message true "Resource deleted"), st2) ∧
    subjects st2
    = subjects (Subject_findOneAndUpdate_inc now' (subject r') (-1) st).
Proof.
  intros Hfind.
  pose proof (Resource_findById_id _ _ _ _ Hfind) as [Hid _].
  set (r' := update_resource now body r).
  set (st1 := with_resources (<[p := r']> (resources st)) st).
  assert (Hfind1 : Resource_findById id st1 = Some (p, r'))
    by by apply Resource_findById_put with r.
  exists r', st1. eexists. split_and!.
  - unfold put_resource, Resource_findByIdAndUpdate. by rewrite Hfind.
  - done.
  - done.
  - unfold delete_resource, Resource_findByIdAndDelete. by rewrite Hfind1.
  - by apply inc_subjects_ext.
Qed.

Lemma moved_resource_decrements_new_subject_witness :
  ∃ r' st1 st2,
    put_resource 20 1%nat (resource_body "Calc Notes" "Physics") calc_store
    = (Reply 200 (J_resource r'), st1) ∧
    subject r' = Some "Physics" ∧
    subjects st1 = subjects calc_store ∧
    delete_resource 21 1%nat st1
    = (Reply 200 (J_message true "Resource deleted"), st2) ∧
    subjects st2
    = subjects (Subject_findOneAndUpdate_inc 21 (subject r') (-1) calc_store).
Proof.
  exact (moved_resource_decrements_new_subject 20 21 1%nat
           (resource_body "Calc Notes" "Physics") calc_store 0%nat
           (new_resource 1%nat 10 (resource_body "Calc Notes" "Math"))
           eq_refl).
Defined.

(** ** Updates *)

Lemma overlay_twice {A} (new old : option A) :
  overlay new (overlay new old) = overlay new old.
Proof. by destruct new. Qed.

Lemma default_twice {A} (new : option A) (old : A) :
  default (default old new) new = default old new.
Proof. by destruct new. Qed.

Lemma update_subject_twice now now' b s :
  update_subject now' b (update_subject now b s) = update_subject now' b s.
Proof.
  unfold update_subject. simpl. by rewrite !overlay_twice, default_twice.
Qed.

Lemma update_resource_twice now now' b r :
  update_resource now' b (update_resource now b r) = update_resource now' b r.
Proof.
  unfold update_resource. simpl. by rewrite !overlay_twice, !default_twice.
Qed.

(** X6: an update whose body holds values for the paths of the schema,
    sent again with the same body, gives the answer and the store that it
    would have given without the first: sending such an update twice is
    sending it once. *)
Theorem update_twice_is_update_once (now now' : Z) (id : Id)
    (sb : SubjectBody) (rb : ResourceBody) (st : Store) :
  put_subject now' id sb (put_subject now id sb st).2
  = put_subject now' id sb st ∧
  put_resource now' id rb (put_resource now id rb st).2
  = put_resource now' id rb st.
Proof.
  split.
  - unfold put_subject, Subject_findByIdAndUpdate.
    destruct (Subject_findById id st) as [[i s]|] eqn:Hfind; simpl.
    + assert (Hfind' :
        Subject_findById id
          (with_subjects (<[i := update_subject now sb s]> (subjects st)) st)
        = Some (i, update_subject now sb s)).
      { unfold Subject_findById in *. simpl.
        apply find_after_put with s; [done|].
        by apply list_find_Some in Hfind as (_ & ? & _). }
      rewrite Hfind'. simpl. rewrite update_subject_twice.
      unfold with_subjects. simpl. by rewrite list_insert_insert_eq.
    + by rewrite Hfind.
  - unfold put_resource, Resource_findByIdAndUpdate.
    destruct (Resource_findById id st) as [[i r]|] eqn:Hfind; simpl.
    + assert (Hfind' :
        Resource_findById id
          (with_resources (<[i := update_resource now rb r]> (resources st)) st)
        = Some (i, update_resource now rb r)).
      { apply Resource_findById_put with r; [done|].
        by apply Resource_findById_id in Hfind as [? _]. }
      rewrite Hfind'. simpl. rewrite update_resource_twice.
      unfold with_resources. simpl. by rewrite list_insert_insert_eq.
    + by rewrite Hfind.
Qed.

(** ** Resources of no Subject *)

(** X7: a Resource whose [subject] no Subject bears is created and
    deleted like any other, with the same answers, and no Subject
    changes. *)
Theorem orphan_resource_changes_no_subject (now : Z) (st : Store) :
  (∀ body,
     (∀ s, s ∈ subjects st → s_name s ≠ rb_subject body) →
     ∃ r,
       post_resources now body st
       = (Reply 201 (J_resource r),
          mkStore (subjects st) (resources st ++ [r]) (S (next_id st)))) ∧
  (∀ id p r,
     Resource_findById id st = Some (p, r) →
     (∀ s, s ∈ subjects st → s_name s ≠ subject r) →
     delete_resource now id st
     = (Reply 200 (J_message true "Resource deleted"),
        mkStore (subjects st) (delete p (resources st)) (next_id st))).
Proof.
  split.
  - intros body Hnone. eexists. unfold post_resources. simpl.
    rewrite inc_not_found; [done|].
    apply list_find_None, Forall_forall. exact Hnone.
  - intros id p r Hfind Hnone.
    unfold delete_resource, Resource_findByIdAndDelete. rewrite Hfind.
    rewrite inc_not_found; [done|].
    apply list_find_None, Forall_forall. exact Hnone.
Qed.

Lemma orphan_resource_changes_no_subject_witness :
  (∃ r,
     post_resources 20 (resource_body "Optics" "Physics") calc_store
     = (Reply 201 (J_resource r),
        mkStore (subjects calc_store) (resources calc_store ++ [r])
                (S (next_id calc_store)))) ∧
  delete_resource 20 0%nat
    (post_resources 1 (resource_body "Optics" "Physics") empty_store).2
  = (Reply 200 (J_message true "Resource deleted"),
     mkStore [] (delete 0%nat [new_resource 0%nat 1
                                 (resource_body "Optics" "Physics")]) 1%nat).
Proof.
  split.
  - apply (proj1 (orphan_resource_changes_no_subject 20 calc_store)).
    intros s Hs. apply list_elem_of_singleton in Hs as ->. discriminate.
  - apply (proj2 (orphan_resource_changes_no_subject 20
             (post_resources 1 (resource_body "Optics" "Physics")
                             empty_store).2)
             0%nat 0%nat
             (new_resource 0%nat 1 (resource_body "Optics" "Physics"))).
    + reflexivity.
    + intros s Hs. by apply elem_of_nil in Hs.
Defined.

(** ** Subjects: deletion and the lookup by slug *)

(** X8: in a state reached from the empty store, the deletion of a
    Subject removes that one document and no Resource, the Resources that
    name it included; after it the identifier finds nothing, and a second
    deletion or an update answers 404 "Subject not found". *)
Theorem deleted_subject_is_gone (now : Z) (id : Id) (body : SubjectBody)
    (st : Store) (i : nat) (s : Subject) :
  reachable st →
  Subject_findById id st = Some (i, s) →
  ∃ st1,
    delete_subject id st = (Reply 200 (J_message true "Subject deleted"), st1) ∧
    subjects st1 = delete i (subjects st) ∧
    resources st1 = resources st ∧
    delete_subject id st1
    = (Reply 404 (J_message false "Subject not found"), st1) ∧
    put_subject now id body st1
    = (Reply 404 (J_message false "Subject not found"), st1).
Proof.
  intros (Hnd & _)%reachable_fresh_ids Hfind.
  set (st1 := with_subjects (delete i (subjects st)) st).
  assert (Hgone : Subject_findById id st1 = None).
  { unfold Subject_findById in *. simpl.
    exact (find_deleted s_id id _ i s Hnd Hfind). }
  exists st1. split_and!; try done.
  - unfold delete_subject, Subject_findByIdAndDelete. by rewrite Hfind.
  - unfold delete_subject, Subject_findByIdAndDelete. by rewrite Hgone.
  - unfold put_subject, Subject_findByIdAndUpdate. by rewrite Hgone.
Qed.

Lemma deleted_subject_is_gone_witness :
  ∃ st1,
    delete_subject 0%nat calc_store
    = (Reply 200 (J_message true "Subject deleted"), st1) ∧
    subjects st1 = delete 0%nat (subjects calc_store) ∧
    resources st1 = resources calc_store ∧
    delete_subject 0%nat st1
    = (Reply 404 (J_message false "Subject not found"), st1) ∧
    put_subject 30 0%nat (subject_body "Maths") st1
    = (Reply 404 (J_message false "Subject not found"), st1).
Proof.
  apply (deleted_subject_is_gone 30 0%nat (subject_body "Maths") calc_store
           0%nat
           (inc_resourceCount 10 1 (new_subject 0%nat 5 (subject_body "Math")))).
  - exists [CreateSubject 5 (subject_body "Math");
            CreateResource 10 (resource_body "Calc Notes" "Math")].
    reflexivity.
  - reflexivity.
Defined.

(** X9: the lookup by slug answers with the oldest Subject of the slug.
    After a Subject is created, a slug that a Subject had already still
    finds that one, whatever the slug of the new Subject; a slug that no
    Subject had finds the new Subject when it is its slug, and nothing
    (404 "Subject not found") when it is not. *)
Theorem slug_finds_oldest (now : Z) (body : SubjectBody) (slug : string)
    (st : Store) :
  (∀ i s, Subject_findOne_slug slug st = Some (i, s) →
     get_subject slug (post_subjects now body st).2 = Reply 200 (J_subject s)) ∧
  (Subject_findOne_slug slug st = None → sb_slug body = Some slug →
     get_subject slug (post_subjects now body st).2
     = Reply 200 (J_subject (new_subject (next_id st) now body))) ∧
  (Subject_findOne_slug slug st = None → sb_slug body ≠ Some slug →
     get_subject slug (post_subjects now body st).2
     = Reply 404 (J_message false "Subject not found")).
Proof.
  unfold get_subject, Subject_findOne_slug. simpl. split_and!.
  - intros i s Hfind. by rewrite (list_find_app_l _ _ _ _ _ Hfind).
  - intros Hnone Hslug. apply list_find_None in Hnone.
    by rewrite find_appended.
  - intros Hnone Hslug. by rewrite find_not_appended, Hnone.
Qed.

Lemma slug_finds_oldest_witness :
  get_subject "math"
    (post_subjects 2 (with_slug "Mathematics" "math")
       (post_subjects 1 (with_slug "Math" "math") empty_store).2).2
  = Reply 200 (J_subject (new_subject 0%nat 1 (with_slug "Math" "math"))) ∧
  get_subject "math" (post_subjects 1 (with_slug "Math" "math") empty_store).2
  = Reply 200 (J_subject (new_subject 0%nat 1 (with_slug "Math" "math"))) ∧
  get_subject "physics"
    (post_subjects 1 (with_slug "Math" "math") empty_store).2
  = Reply 404 (J_message false "Subject not found").
Proof.
  split_and!.
  - exact (proj1 (slug_finds_oldest 2 (with_slug "Mathematics" "math") "math"
                    (post_subjects 1 (with_slug "Math" "math") empty_store).2)
             0%nat (new_subject 0%nat 1 (with_slug "Math" "math")) eq_refl).
  - exact (proj1 (proj2 (slug_finds_oldest 1 (with_slug "Math" "math") "math"
                           empty_store)) eq_refl eq_refl).
  - apply (proj2 (proj2 (slug_finds_oldest 1 (with_slug "Math" "math")
                           "physics" empty_store))).
    + reflexivity.
    + discriminate.
Defined.

(** ** Stats *)

Lemma sum_of_app f l1 l2 : sum_of f (l1 ++ l2) = sum_of f l1 + sum_of f l2.
Proof. induction l1 as [|x l1 IH]; simpl; [done|]. rewrite IH. lia. Qed.

Lemma sum_of_put f l i x y :
  l !! i = Some x → sum_of f (<[i := y]> l) = sum_of f l - f x + f y.
Proof.
  revert i. induction l as [|z l IH]; intros [|i] Hi; simplify_eq/=; [lia|].
  rewrite (IH i Hi). lia.
Qed.

Lemma sum_of_delete f l i x :
  l !! i = Some x → sum_of f (delete i l) = sum_of f l - f x.
Proof.
  revert i. induction l as [|z l IH]; intros [|i] Hi; simplify_eq/=; [lia|].
  rewrite (IH i Hi). lia.
Qed.

Lemma sum_abs_nonneg f l : 0 ≤ sum_abs f l.
Proof. induction l as [|x l IH]; simpl; [done|]. unfold sum_abs in *. simpl. lia. Qed.

Lemma sum_abs_lookup f l i x : l !! i = Some x → Z.abs (f x) ≤ sum_abs f l.
Proof.
  revert i. induction l as [|z l IH]; intros [|i] Hi; simplify_eq/=.
  - pose proof (sum_abs_nonneg f l). unfold sum_abs in *. simpl. lia.
  - specialize (IH i Hi). unfold sum_abs in *. simpl. lia.
Qed.

(** X10: for a Resource of a store in which the magnitudes of the
    [downloads] add up to less than 2^53, and so do those of the [views],
    a download raises the [downloads] of the stats by 1 and a fetch
    raises their [views] by 1; each leaves the three other figures as
    they were. *)
Theorem stats_follow_the_counters (now : Z) (id : Id) (st : Store)
    (p : nat) (r : Resource) (nS nR : nat) (dl vw : Z) :
  Resource_findById id st = Some (p, r) →
  sum_abs downloads (resources st) < 2 ^ 53 →
  sum_abs views (resources st) < 2 ^ 53 →
  get_stats st = Reply 200 (J_stats nS nR dl vw) →
  get_stats (post_download now id st).2
  = Reply 200 (J_stats nS nR (dl + 1) vw) ∧
  get_stats (get_resource now id st).2
  = Reply 200 (J_stats nS nR dl (vw + 1)).
Proof.
  intros Hfind Hdl Hvw Hstats.
  destruct (Resource_findById_id _ _ _ _ Hfind) as [Hid Hp].
  assert (Hd : js_add (downloads r) 1 = downloads r + 1).
  { apply js_add_safe. unfold safe.
    pose proof (sum_abs_lookup downloads _ _ _ Hp). lia. }
  assert (Hv : js_add (views r) 1 = views r + 1).
  { apply js_add_safe. unfold safe.
    pose proof (sum_abs_lookup views _ _ _ Hp). lia. }
  unfold get_stats in *. injection Hstats as <- <- <- <-.
  rewrite (post_download_found now id st p r Hfind) by lia.
  rewrite (get_resource_found now id st p r Hfind) by lia.
  rewrite Hd, Hv. simpl.
  rewrite !length_insert, !(sum_of_put _ _ _ r) by done.
  simpl. split; do 2 f_equal; lia.
Qed.

Lemma stats_follow_the_counters_witness :
  get_stats (post_download 20 1%nat calc_store).2
  = Reply 200 (J_stats 1 1 (0 + 1) 0) ∧
  get_stats (get_resource 20 1%nat calc_store).2
  = Reply 200 (J_stats 1 1 0 (0 + 1)).
Proof.
  apply (stats_follow_the_counters 20 1%nat calc_store 0%nat
           (new_resource 1%nat 10 (resource_body "Calc Notes" "Math"))
           1%nat 1%nat 0 0).
  - reflexivity.
  - reflexivity.
  - reflexivity.
  - reflexivity.
Defined.

Lemma inc_length now name delta st :
  length (subjects (Subject_findOneAndUpdate_inc now name delta st))
  = length (subjects st).
Proof.
  pose proof (inc_subjects now name delta st) as Hinc.
  destruct (Subject_findOne_name name st) as [[i s]|]; rewrite Hinc;
    [apply length_insert|done].
Qed.

Lemma post_resources_store now body st :
  (post_resources now body st).2
  = Subject_findOneAndUpdate_inc now (rb_subject body) 1
      (mkStore (subjects st)
               (resources st ++ [new_resource (next_id st) now body])
               (S (next_id st))).
Proof. reflexivity. Qed.

(** X11: while the magnitudes of the [downloads] add up to less than
    2^53, and so do those of the [views], with the counters of the body
    counted in, the creation of a Resource adds 1 to the [resources] of
    the stats and the counters of its body (0 where the body sets none)
    to their [downloads] and [views]; the deletion of a Resource of the
    store takes 1 and its counters away again; neither changes the
    [subjects]. *)
Theorem stats_follow_the_resources (now : Z) (st : Store)
    (nS nR : nat) (dl vw : Z) :
  get_stats st = Reply 200 (J_stats nS nR dl vw) →
  (∀ body,
     sum_abs downloads (resources st) + Z.abs (default 0 (rb_downloads body))
     < 2 ^ 53 →
     sum_abs views (resources st) + Z.abs (default 0 (rb_views body))
     < 2 ^ 53 →
     get_stats (post_resources now body st).2
     = Reply 200 (J_stats nS (S nR) (dl + default 0 (rb_downloads body))
                          (vw + default 0 (rb_views body)))) ∧
  (∀ id p r,
     Resource_findById id st = Some (p, r) →
     sum_abs downloads (resources st) < 2 ^ 53 →
     sum_abs views (resources st) < 2 ^ 53 →
     get_stats (delete_resource now id st).2
     = Reply 200 (J_stats nS (Nat.pred nR) (dl - downloads r) (vw - views r))).
Proof.
  intros Hstats. unfold get_stats in *. injection Hstats as <- <- <- <-.
  split.
  - intros body _ _. rewrite post_resources_store, inc_length, inc_resources.
    cbn [subjects resources]. rewrite length_app, !sum_of_app. simpl.
    do 2 f_equal; lia.
  - intros id p r Hfind _ _.
    destruct (Resource_findById_id _ _ _ _ Hfind) as [_ Hp].
    unfold delete_resource, Resource_findByIdAndDelete. rewrite Hfind.
    cbn [snd]. rewrite inc_length, inc_resources.
    cbn [subjects resources with_resources].
    rewrite length_delete by done.
    rewrite !(sum_of_delete _ _ _ r) by done.
    do 2 f_equal. lia.
Qed.

Lemma stats_follow_the_resources_witness :
  get_stats (post_resources 20 (resource_body "Algebra" "Math") calc_store).2
  = Reply 200 (J_stats 1 (S 1) (0 + 0) (0 + 0)) ∧
  get_stats (delete_resource 20 1%nat calc_store).2
  = Reply 200 (J_stats 1 (Nat.pred 1) (0 - 0) (0 - 0)).
Proof.
  split.
  - apply (proj1 (stats_follow_the_resources 20 calc_store 1%nat 1%nat 0 0
                    eq_refl) (resource_body "Algebra" "Math")).
    + reflexivity.
    + reflexivity.
  - apply (proj2 (stats_follow_the_resources 20 calc_store 1%nat 1%nat 0 0
                    eq_refl) 1%nat 0%nat
             (new_resource 1%nat 10 (resource_body "Calc Notes" "Math"))).
    + reflexivity.
    + reflexivity.
    + reflexivity.
Defined.

(** ** Pages of the listing of the Resources *)






(** X14: with [limit=0] the store limits nothing and the skip is 0 for
    every [page]: whatever the page, the listing answers with all the
    Resources the filter selects, and its [pages] is not a number. *)
Theorem limit_zero_lists_everything (q : ResourcesQuery) (st : Store)
    (cf : CastFilter) (page : Z) :
  page = default 1 (rq_page q) →
  rq_limit q = Some 0 →
  cast_filter (resources_query q) = Some (Ok cf) →
  get_resources q st
  = Some (Reply 200
      (J_resources (length (matching cf st)) (length (matching cf st)) page
                   None (matching cf st))).
Proof.
  intros Hpage Hlimit Hcast.
  rewrite (get_resources_answer q st cf page 0);
    [|done|by rewrite Hlimit|done|lia].
  by rewrite Z.mul_0_r.
Qed.

(** ** What a query chooses *)


(** X16: the total of a listing that filters nothing is the [resources]
    figure of the stats. *)
Theorem unfiltered_total_is_stats (q : ResourcesQuery) (st : Store)
    (page limit : Z) :
  rq_subject q = None → rq_type q = None → rq_year q = None →
  rq_search q = None →
  page = default 1 (rq_page q) → limit = default 20 (rq_limit q) →
  1 ≤ page → 1 ≤ limit →
  ∃ count total pages found nS dl vw,
    get_resources q st
    = Some (Reply 200 (J_resources count total page pages found)) ∧
    get_stats st = Reply 200 (J_stats nS total dl vw).
Proof.
  intros Hs Ht Hy Hp Hpage Hlimit Hgp Hgl.
  assert (Hcast : cast_filter (resources_query q)
                  = Some (Ok (mkCastFilter None None None None))).
  { unfold cast_filter, resources_query. by rewrite Hs, Ht, Hy, Hp. }
  rewrite (get_resources_answer q st _ page limit Hpage Hlimit Hcast) by nia.
  rewrite matching_length.
  assert (filter (λ r, resource_matches (mkCastFilter None None None None) r)
                 (resources st) = resources st) as ->.
  { induction (resources st) as [|r l IH]; [done|].
    rewrite filter_cons_True by done. by rewrite IH. }
  by eexists _, _, _, _, _, _, _.
Qed.

(** ** Routes *)

(** The cases of a path against a pattern of the table. *)
Ltac path_cases Hp :=
  repeat match type of Hp with
  | context [String.eqb (lower_string ?x) ?lit] =>
      let E := fresh "E" in
      destruct (String.eqb_spec (lower_string x) lit) as [E|E];
      [|discriminate Hp]
  | context [String.eqb ?x ""] =>
      let E := fresh "E" in
      destruct (String.eqb x "") eqn:E; [discriminate Hp|]
  end.

(** The parameters of a route that decode. *)
Ltac decode_cases Hdec :=
  repeat match type of Hdec with
  | context [decodeURIComponent ?x] =>
      let D := fresh "D" in
      destruct (decodeURIComponent x) eqn:D; simpl in Hdec;
      [|discriminate Hdec]
  end.

Lemma route_layers_complete rm pat r m p raw ps :
  (rm, pat, r) ∈ routes → handles rm m = true →
  match_path pat p = Some raw → mapM decodeURIComponent raw = Some ps →
  route_layers routes m p = Some (Some (r, ps)).
Proof.
  intros Hin Hm Hp Hdec. unfold routes in Hin.
  repeat (apply elem_of_cons in Hin as [[= -> -> ->]|Hin]; [
    destruct p as [|x [|y [|z [|w [|? ?]]]]]; simpl in Hp; try discriminate Hp;
    path_cases Hp; try discriminate Hp; injection Hp as <-;
    simpl in Hdec; decode_cases Hdec; injection Hdec as <-;
    destruct m; try discriminate Hm;
    repeat progress (simpl; rewrite ?E, ?E0, ?E1, ?E2, ?D); reflexivity
  |]).
  by apply elem_of_nil in Hin.
Qed.

(** X17: a request is handed to a route, with the parameters of its path
    decoded, exactly when its method is not OPTIONS, [express.json()]
    takes its body, and the route is registered with a method that takes
    the request's and with a pattern the path matches with parameters
    that decode: no route of server.js is hidden by one registered before
    it. *)
Theorem routed_iff_registered (env : Env) (req : Request) (r : Route)
    (ps : list string) :
  app env req = Routed r ps ↔
  method req ≠ OPTIONS ∧ body_fails req = false ∧
  ∃ rm pat raw,
    (rm, pat, r) ∈ routes ∧ handles rm (method req) = true ∧
    match_path pat (path req) = Some raw ∧
    mapM decodeURIComponent raw = Some ps.
Proof.
  unfold app. split.
  - case_bool_decide as Hopt; [done|].
    destruct (body_fails req); [done|].
    destruct (route_layers routes (method req) (path req))
      as [[[r' ps']|]|] eqn:Hr.
    + intros [= <- <-]. split_and!; [done..|]. by apply route_layers_sound.
    + repeat case_match; done.
    + done.
  - intros (Hopt & Hbody & rm & pat & raw & Hin & Hm & Hp & Hdec).
    rewrite bool_decide_eq_false_2, Hbody by done.
    by rewrite (route_layers_complete rm pat r _ _ raw ps).
Qed.

(** X18: the routes of a collection get no parameter; the routes of one
    document get one, which is what a segment of the path that is not
    empty decodes to. *)
Theorem routed_parameters (env : Env) (req : Request) (r : Route)
    (ps : list string) :
  app env req = Routed r ps →
  match r with
  | Health | SubjectsList | SubjectCreate | ResourcesList | ResourceCreate
  | Stats => ps = []
  | SubjectBySlug | SubjectUpdate | SubjectDelete | ResourceGet
  | ResourceUpdate | ResourceDelete | ResourceDownload =>
      ∃ raw x,
        ps = [x] ∧ raw ≠ "" ∧ raw ∈ path req ∧
        decodeURIComponent raw = Some x
  end.
Proof.
  intros (_ & _ & rm & pat & raw & Hin & _ & Hp & Hdec)%routed_iff_registered.
  apply match_path_params in Hp as [Hraw Hlen].
  apply mapM_Some in Hdec. unfold routes in Hin.
  repeat (apply elem_of_cons in Hin as [[= -> -> ->]|Hin]; [
    simpl in Hlen;
    try (destruct raw as [|? ?]; [|discriminate Hlen];
         by apply Forall2_nil_inv_l in Hdec);
    destruct raw as [|x0 [|? ?]]; try discriminate Hlen;
    apply Forall2_cons_inv_l in Hdec as (x & ps' & Hx & ->%Forall2_nil_inv_l & ->);
    apply Forall_singleton in Hraw as [? ?]; by exists x0, x
  |]).
  by apply elem_of_nil in Hin.
Qed.

(** X19: a GET or HEAD request is never answered by the 404 handler, and a
    request of another method is never answered with a file. *)
Theorem fallback_by_method (env : Env) (req : Request) :
  (handles GET (method req) = true →
   app env req ≠ Answered route_not_found) ∧
  (handles GET (method req) = false →
   ∀ f, app env req ≠ Answered (File f)).
Proof.
  unfold app. split; intros Hm.
  - rewrite Hm. repeat case_match; discriminate.
  - rewrite Hm. intros f. repeat case_match; discriminate.
Qed.

(** ** The listing of all the Subjects *)

Lemma filter_all {A} (P : A → Prop) `{!∀ x, Decision (P x)} (l : list A) :
  (∀ x, P x) → filter P l = l.
Proof.
  intros HP. induction l as [|x l IH]; [done|].
  rewrite filter_cons_True by done. by rewrite IH.
Qed.

(** X20: with a category that is absent, empty or ['all'] and a search
    string that is absent or empty, the listing of the Subjects holds
    every Subject of the store once, sorted by name, and its count is the
    [subjects] figure of the stats. *)
Theorem every_subject_is_listed (q : SubjectsQuery) (st : Store) :
  sq_category q = None ∨ sq_category q = Some "" ∨ sq_category q = Some "all" →
  sq_search q = None ∨ sq_search q = Some "" →
  ∃ count found nR dl vw,
    get_subjects q st = Some (Reply 200 (J_subjects count found)) ∧
    found ≡ₚ subjects st ∧
    StronglySorted by_name found ∧
    get_stats st = Reply 200 (J_stats count nR dl vw).
Proof.
  intros Hc Hs.
  assert (subjects_query q = mkSubjectFilter None None) as Hq.
  { unfold subjects_query.
    destruct Hc as [->|[->| ->]], Hs as [->| ->]; reflexivity. }
  unfold get_subjects, Subject_find_sorted. rewrite Hq. simpl.
  rewrite (filter_all _ (subjects st)) by done.
  eexists _, _, _, _, _. split_and!; [done| | |].
  - apply merge_sort_Permutation.
  - apply StronglySorted_merge_sort; apply _.
  - unfold get_stats. by rewrite merge_sort_Permutation.
Qed.

End platform.

(** * Examples

    The theorems above that speak of the store's engine or of the decoder
    hold for each; here they are applied with the engine and the decoder
    of the examples. *)

(** The engine of the examples reads a pattern of ordinary characters as
    the string itself. *)
Lemma fragment_literal : literal_engine fragment.
Proof.
  intros p Hp _. exists (regex_search (literal p)). split.
  - unfold fragment. by rewrite (regex_compile_ordinary p Hp).
  - intros s _. apply regex_search_literal.
Qed.

(** ** Requests no route takes *)

(** C7, as stated, fails: a GET request for a path no route takes is
    answered by the catch-all of the frontend, with [build/index.html]
    when the file is there and with 500 "Something went wrong!" when it is
    not. *)
Lemma unmatched_get_is_frontend :
  let req := mkRequest GET ["api"; "nothing"] false in
  find_route routes (method req) (path req) = None ∧
  app unescaped index_only req = Answered (File ["build"; "index.html"]) ∧
  app unescaped no_files req = Answered something_went_wrong ∧
  app unescaped index_only req ≠ Answered route_not_found ∧
  app unescaped no_files req ≠ Answered route_not_found.
Proof. split_and!; try reflexivity; discriminate. Qed.

Lemma unmatched_is_not_found_witness :
  app unescaped no_files (mkRequest POST ["api"; "nothing"] false)
  = Answered (Reply 404 (J_message false "Route not found")) ∧
  app unescaped index_only (mkRequest GET ["about"] false)
  = Answered (File ["build"; "index.html"]).
Proof.
  split.
  - refine (proj1 (proj1 (proj2 (proj2
              (unmatched_is_not_found unescaped no_files
                 (mkRequest POST ["api"; "nothing"] false) _))) _ _ _ _) _ _).
    + reflexivity.
    + discriminate.
    + reflexivity.
    + repeat constructor; by eexists.
    + by eexists.
    + discriminate.
    + discriminate.
  - refine (proj2 (proj1 (proj2 (proj2
              (unmatched_is_not_found unescaped index_only
                 (mkRequest GET ["about"] false) _))) _ _ _ _) _).
    + reflexivity.
    + discriminate.
    + reflexivity.
    + repeat constructor; by eexists.
    + by eexists.
    + by left.
Defined.

(** ** Listing the Subjects *)

(** C6, as stated, fails: the search string is a pattern, and ["."]
    selects every Subject with a name, "Biology" among them, though no
    name of the store contains a full stop. *)
Lemma dot_selects_every_name :
  get_subjects fragment (mkSubjectsQuery None (Some ".")) science
  = Some (Reply 200 (J_subjects 3 [biochemistry; biology; chemistry])) ∧
  ¬ contains_ci "." "Biology".
Proof.
  split; [reflexivity|].
  rewrite <- regex_search_literal. by vm_compute.
Qed.

Lemma get_subjects_sorted_selected_witness :
  (∃ found,
     get_subjects fragment (mkSubjectsQuery (Some "all") (Some "Chem")) science
     = Some (Reply 200 (J_subjects (length found) found)) ∧
     StronglySorted by_name found ∧
     (∀ s, s ∈ found ↔
           s ∈ subjects science ∧
           matched fragment (mkSubjectsQuery (Some "all") (Some "Chem")) s) ∧
     (literal_engine fragment →
      (∀ p, sq_search (mkSubjectsQuery (Some "all") (Some "Chem")) = Some p →
            ordinary p = true ∧ ascii_string p = true) →
      ∀ s, (∀ n, s_name s = Some n → ascii_string n = true) →
           (s ∈ found ↔
            s ∈ subjects science ∧
            selected (mkSubjectsQuery (Some "all") (Some "Chem")) s))) ∧
  get_subjects fragment (mkSubjectsQuery None (Some "bio")) science
  = Some (Reply 200 (J_subjects 2 [biochemistry; biology])).
Proof.
  split.
  - apply (proj2 (proj1 (get_subjects_sorted_selected fragment)
                    (mkSubjectsQuery (Some "all") (Some "Chem")) science)).
    intros p Hp. injection Hp as <-. right. by eexists.
  - apply (proj2 (get_subjects_sorted_selected fragment)).
    exact fragment_literal.
Defined.

(** ** Listing the Resources *)



(** The same page, computed: the Resources created at the instants 15
    down to 6. *)
Example second_page_of_library :
  ∃ found,
    get_resources fragment second_page library
    = Some (Reply 200 (J_resources 10 25 2 (Some 3) found)) ∧
    r_createdAt <$> found = [15; 14; 13; 12; 11; 10; 9; 8; 7; 6].
Proof. eexists. split; reflexivity. Qed.

(** ** A year that is not a number *)

(** C10, as stated, fails: the filter [year=abc] is refused when it is
    cast, and the answer is 500 with the error, not an empty page. *)
Lemma year_abc_is_refused :
  get_resources fragment
    (mkResourcesQuery None None (Some "abc") None None None) calc_store
  = Some (Reply 500 (J_error (CastError "year"))) ∧
  get_resources fragment
    (mkResourcesQuery None None (Some "abc") None None None) calc_store
  ≠ Some (Reply 200 (J_resources 0 0 1 (Some 0) [])).
Proof. split; [reflexivity|discriminate]. Qed.

Lemma year_not_a_number_is_refused_witness :
  get_resources fragment
    (mkResourcesQuery (Some "Math") None (Some "next year") None
                      (Some 1) (Some 5)) library
  = Some (Reply 500 (J_error (CastError "year"))).
Proof.
  apply (year_not_a_number_is_refused fragment
           (mkResourcesQuery (Some "Math") None (Some "next year") None
                             (Some 1) (Some 5)) library "next year").
  - reflexivity.
  - discriminate.
  - reflexivity.
Defined.

(** What [parseInt] reads: white space before the digits is skipped, a
    no-break space (U+00A0, two bytes) as well as a space; digits beyond
    the 53 bits of a double are rounded. *)
Example parseInt_reads :
  parseInt " 2024" = Num 2024 ∧
  parseInt (String (ascii_of_nat 194) (String (ascii_of_nat 160) "2024"))
  = Num 2024 ∧
  parseInt "2024abc" = Num 2024 ∧
  parseInt "0x10" = Num 16 ∧
  parseInt "-7" = Num (-7) ∧
  parseInt "99999999999999999999999" = Num 99999999999999991611392 ∧
  parseInt "abc" = NaN ∧
  parseInt "" = NaN.
Proof. by vm_compute. Qed.

(** ** Pages of the listing of the Resources *)



Lemma limit_zero_lists_everything_witness :
  get_resources fragment
    (mkResourcesQuery (Some "Math") None None None (Some 7) (Some 0)) library
  = Some (Reply 200
      (J_resources
         (length (matching (mkCastFilter (Some "Math") None None None) library))
         (length (matching (mkCastFilter (Some "Math") None None None) library))
         7 None
         (matching (mkCastFilter (Some "Math") None None None) library))).
Proof.
  apply (limit_zero_lists_everything fragment
           (mkResourcesQuery (Some "Math") None None None (Some 7) (Some 0))
           library (mkCastFilter (Some "Math") None None None) 7).
  - reflexivity.
  - reflexivity.
  - reflexivity.
Defined.


Lemma unfiltered_total_is_stats_witness :
  ∃ count total pages found nS dl vw,
    get_resources fragment (mkResourcesQuery None None None None None None)
                  library
    = Some (Reply 200 (J_resources count total 1 pages found)) ∧
    get_stats library = Reply 200 (J_stats nS total dl vw).
Proof.
  apply (unfiltered_total_is_stats fragment
           (mkResourcesQuery None None None None None None) library 1 20);
    try reflexivity; lia.
Defined.

(** ** Routes *)

Lemma routed_iff_registered_witness :
  app unescaped no_files (mkRequest PUT ["API"; "Subjects"; "7"] false)
  = Routed SubjectUpdate ["7"].
Proof.
  apply (proj2 (routed_iff_registered unescaped no_files
                  (mkRequest PUT ["API"; "Subjects"; "7"] false)
                  SubjectUpdate ["7"])).
  split_and!; [discriminate|reflexivity|].
  exists PUT, [Fixed "api"; Fixed "subjects"; Param], ["7"].
  split_and!; [|reflexivity..].
  do 4 right. left.
Defined.

Lemma routed_parameters_witness :
  ∃ raw x,
    ["42"] = [x] ∧ raw ≠ "" ∧
    raw ∈ ["api"; "resources"; "42"; "download"] ∧
    unescaped raw = Some x.
Proof.
  exact (routed_parameters unescaped no_files
           (mkRequest POST ["api"; "resources"; "42"; "download"] false)
           ResourceDownload ["42"] eq_refl).
Defined.

Lemma fallback_by_method_witness :
  app unescaped index_only (mkRequest GET ["about"] false)
  ≠ Answered route_not_found ∧
  ∀ f, app unescaped index_only (mkRequest DELETE ["about"] false)
       ≠ Answered (File f).
Proof.
  split.
  - exact (proj1 (fallback_by_method unescaped index_only
                    (mkRequest GET ["about"] false)) eq_refl).
  - exact (proj2 (fallback_by_method unescaped index_only
                    (mkRequest DELETE ["about"] false)) eq_refl).
Defined.

(** ** The listing of all the Subjects *)

Lemma every_subject_is_listed_witness :
  ∃ count found nR dl vw,
    get_subjects fragment (mkSubjectsQuery (Some "all") (Some "")) science
    = Some (Reply 200 (J_subjects count found)) ∧
    found ≡ₚ subjects science ∧
    StronglySorted by_name found ∧
    get_stats science = Reply 200 (J_stats count nR dl vw).
Proof.
  apply (every_subject_is_listed fragment
           (mkSubjectsQuery (Some "all") (Some "")) science).
  - right. right. reflexivity.
  - right. reflexivity.
Defined.
